(** * CheckUpSite backend: health probe, state tracker and monitoring cycle

    A shallow embedding of [backend/server.js]: [checkSite],
    [updateMonitoringState], [initializeMonitoringState],
    [performAutomaticMonitoring] and the [GET /api/check] handler.

    Modelling conventions.
    - Timestamps ([Date.now()], [new Date().toISOString()]) are clock
      readings in milliseconds ([Z]); every reading the code takes is an
      explicit input, so two readings may differ.
    - The network is an input: [ax_outcome] is what [axios.get] settles
      with for one request.
    - A JS promise that settles is [promise A]: resolved with a value or
      rejected with the message of the thrown error.
    - [monitoringState] is a plain JS object [{}]. Its own entries are a
      [gmap string site_state]; a property read [monitoringState[k]] that
      misses the own entries falls through to [Object.prototype], whose
      members ([constructor], [toString], ...) are truthy objects. Fields
      the code assigns on such a builtin object are kept per builtin in
      [builtinProps]; their visibility through other objects' prototype
      chains (after a write via [__proto__]) is not tracked. *)

From Stdlib Require Import ZArith Ascii String List.
From stdpp Require Import base gmap strings list pretty.

Open Scope string_scope.
Open Scope list_scope.
Open Scope Z_scope.

(** ** JavaScript values stored on builtin objects *)

Inductive jsval :=
| JUndef
| JNull
| JStr (s : string)
| JNum (z : Z)
| JNaN.

Definition js_of_opt_str (o : option string) : jsval :=
  match o with Some s => JStr s | None => JNull end.

Definition js_of_opt_Z (o : option Z) : jsval :=
  match o with Some z => JNum z | None => JNull end.

(** [v !== null] *)
Definition js_not_null (v : jsval) : bool :=
  match v with JNull => false | _ => true end.

(** [v !== s] for a string [s] *)
Definition js_neq_str (v : jsval) (s : string) : bool :=
  match v with JStr s' => negb (String.eqb s' s) | _ => true end.

(** [v++] on the values [changeCount] can hold (the seed [0], the
    results of [++], or [undefined] on a builtin object). *)
Definition js_incr (v : jsval) : jsval :=
  match v with
  | JNum z => JNum (z + 1)
  | JNull => JNum 1
  | _ => JNaN
  end.

(** ** Prober: [checkSite(url, timeout)] *)

(** What [axios.get] settles with: a response (any status code is
    accepted, [validateStatus: () => true]) or a thrown error with its
    optional [code] and [message] properties. *)
Inductive ax_outcome :=
| AxResponse (http_status : Z)
| AxError (code : option string) (message : option string).

(** The environment of one probe: the network outcome and the clock
    readings the code takes. *)
Record probe_env := {
  pe_outcome : ax_outcome;
  pe_start : Z;    (** [startTime = Date.now()] *)
  pe_end : Z;      (** [Date.now()] after [axios.get] settles *)
  pe_checked : Z;  (** [new Date()] for [checkedAt] *)
  pe_handled : Z   (** [new Date()] read in the cycle's [.then]/[.catch] *)
}.

(** The object returned by [checkSite]; [errorType] is absent ([None])
    on the response path. *)
Record check_result := {
  status : string;
  statusCode : option Z;
  responseTime : Z;
  checkedAt : Z;
  error : option string;
  errorType : option string
}.

Inductive promise (A : Type) :=
| Resolved (a : A)
| Rejected (reason : string).
Arguments Resolved {A} _.
Arguments Rejected {A} _.

Definition promise_map {A B} (f : A -> B) (p : promise A) : promise B :=
  match p with Resolved a => Resolved (f a) | Rejected m => Rejected m end.

(** [s.includes(sub)] *)
Fixpoint includes (s sub : string) : bool :=
  String.prefix sub s ||
  match s with
  | EmptyString => false
  | String _ s' => includes s' sub
  end.

(** [error.code === c] *)
Definition code_is (code : option string) (c : string) : bool :=
  match code with Some c' => String.eqb c' c | None => false end.

(** Reading [error.message.includes] when [message] is undefined throws. *)
Definition type_error_includes : string :=
  "Cannot read properties of undefined (reading 'includes')".

Definition ssl_issue : string * string :=
  ("SSL certificate issue (but connection was made)", "SSL Warning").

(** The [catch] branch of [checkSite]: [(errorMessage, errorType)]. *)
Definition classify_error (code : option string) (message : option string)
  : promise (string * string) :=
  if code_is code "ECONNABORTED" then Resolved ("Request timeout (5 seconds)", "Timeout")
  else if code_is code "ENOTFOUND" then Resolved ("Domain not found", "DNS Error")
  else if code_is code "ECONNREFUSED" then Resolved ("Connection refused", "Connection Error")
  else if code_is code "ERR_TLS_CERT_ALTNAME_INVALID" || code_is code "CERT_HAS_EXPIRED"
  then Resolved ssl_issue
  else
    match message with
    | None => Rejected type_error_includes
    | Some m =>
        if includes m "certificate" then Resolved ssl_issue
        else if includes m "getaddrinfo" then Resolved ("Network error", "Network Error")
        else if negb (String.eqb m "") then Resolved (m, "Unknown")
        else Resolved ("Unknown error", "Unknown")
    end.

Definition checkSite (url : string) (env : probe_env) : promise check_result :=
  let rt := pe_end env - pe_start env in
  match pe_outcome env with
  | AxResponse code =>
      Resolved {| status := if (200 <=? code) && (code <? 400) then "UP" else "DOWN";
                  statusCode := Some code;
                  responseTime := rt;
                  checkedAt := pe_checked env;
                  error := None;
                  errorType := None |}
  | AxError code message =>
      promise_map
        (fun '(msg, ty) =>
           {| status := "DOWN";
              statusCode := None;
              responseTime := rt;
              checkedAt := pe_checked env;
              error := Some msg;
              errorType := Some ty |})
        (classify_error code message)
  end.

(** ** State tracker *)

(** A configured target from [sites.json]: [{name, url}]. *)
Record site := {
  site_name : string;
  site_url : string
}.

(** The per-site object held in [monitoringState]; [null] is [None]. *)
Record site_state := {
  name : string;
  url : string;
  lastStatus : option string;
  lastCheckedAt : option Z;
  lastChangedAt : option Z;
  changeCount : Z;
  lastStatusCode : option Z;
  lastError : option string
}.

(** Fields the tracker assigns on a builtin object reached through the
    prototype chain; a field never assigned reads as [undefined]. *)
Record builtin_ext := {
  x_lastStatus : jsval;
  x_lastCheckedAt : jsval;
  x_lastChangedAt : jsval;
  x_changeCount : jsval;
  x_lastStatusCode : jsval;
  x_lastError : jsval
}.

Definition builtin_fresh : builtin_ext :=
  {| x_lastStatus := JUndef; x_lastCheckedAt := JUndef; x_lastChangedAt := JUndef;
     x_changeCount := JUndef; x_lastStatusCode := JUndef; x_lastError := JUndef |}.

(** The argument of one [sendTelegramAlert] call (fire-and-forget). *)
Record alert := {
  al_siteName : string;
  al_url : jsval;
  al_newStatus : string;
  al_previousStatus : jsval;
  al_statusCode : option Z;
  al_responseTime : Z;
  al_error : option string;
  al_checkedAt : Z
}.

(** The process state the tracker reads and writes. *)
Record server := {
  monitoringState : gmap string site_state;
  builtinProps : gmap string builtin_ext;
  telegramCalls : list alert
}.

Definition server_empty : server :=
  {| monitoringState := ∅; builtinProps := ∅; telegramCalls := [] |}.

(** The properties of [Object.prototype] in Node.js; each is a function
    or, for [__proto__], [Object.prototype] itself: a truthy object. *)
Definition object_prototype_names : list string :=
  ["constructor"; "__defineGetter__"; "__defineSetter__"; "hasOwnProperty";
   "__lookupGetter__"; "__lookupSetter__"; "isPrototypeOf";
   "propertyIsEnumerable"; "toString"; "valueOf"; "__proto__"; "toLocaleString"].

(** What [monitoringState[k]] evaluates to. *)
Inductive prop_ref :=
| OwnEntry (st : site_state)
| Inherited (b : string)
| Missing.

Definition get_prop (s : server) (k : string) : prop_ref :=
  match monitoringState s !! k with
  | Some st => OwnEntry st
  | None => if bool_decide (k ∈ object_prototype_names) then Inherited k else Missing
  end.

Definition builtin_get (s : server) (b : string) : builtin_ext :=
  default builtin_fresh (builtinProps s !! b).

(** The object [updateMonitoringState] returns on a change. *)
Record change_event := {
  ce_siteName : string;
  ce_previousStatus : jsval;
  ce_newStatus : string;
  ce_changedAt : Z;
  ce_changeCount : jsval
}.

(** The four unconditional assignments on an own entry. *)
Definition record_check (st : site_state) (r : check_result) : site_state :=
  {| name := name st; url := url st;
     lastStatus := Some (status r);
     lastCheckedAt := Some (checkedAt r);
     lastChangedAt := lastChangedAt st;
     changeCount := changeCount st;
     lastStatusCode := statusCode r;
     lastError := error r |}.

(** [changeCount++] and [lastChangedAt = new Date()] on an own entry. *)
Definition record_change (st : site_state) (now : Z) : site_state :=
  {| name := name st; url := url st;
     lastStatus := lastStatus st;
     lastCheckedAt := lastCheckedAt st;
     lastChangedAt := Some now;
     changeCount := changeCount st + 1;
     lastStatusCode := lastStatusCode st;
     lastError := lastError st |}.

Definition ext_record_check (x : builtin_ext) (r : check_result) : builtin_ext :=
  {| x_lastStatus := JStr (status r);
     x_lastCheckedAt := JNum (checkedAt r);
     x_lastChangedAt := x_lastChangedAt x;
     x_changeCount := x_changeCount x;
     x_lastStatusCode := js_of_opt_Z (statusCode r);
     x_lastError := js_of_opt_str (error r) |}.

Definition ext_record_change (x : builtin_ext) (now : Z) : builtin_ext :=
  {| x_lastStatus := x_lastStatus x;
     x_lastCheckedAt := x_lastCheckedAt x;
     x_lastChangedAt := JNum now;
     x_changeCount := js_incr (x_changeCount x);
     x_lastStatusCode := x_lastStatusCode x;
     x_lastError := x_lastError x |}.

Definition set_state (s : server) (k : string) (st : site_state) : server :=
  {| monitoringState := <[k := st]> (monitoringState s);
     builtinProps := builtinProps s;
     telegramCalls := telegramCalls s |}.

Definition set_builtin (s : server) (b : string) (x : builtin_ext) : server :=
  {| monitoringState := monitoringState s;
     builtinProps := <[b := x]> (builtinProps s);
     telegramCalls := telegramCalls s |}.

Definition send_alert (s : server) (a : alert) : server :=
  {| monitoringState := monitoringState s;
     builtinProps := builtinProps s;
     telegramCalls := telegramCalls s ++ [a] |}.

Definition mk_alert (siteName : string) (u : jsval) (newStatus : string)
  (previousStatus : jsval) (r : check_result) : alert :=
  {| al_siteName := siteName; al_url := u; al_newStatus := newStatus;
     al_previousStatus := previousStatus; al_statusCode := statusCode r;
     al_responseTime := responseTime r; al_error := error r;
     al_checkedAt := checkedAt r |}.

(** [updateMonitoringState(siteName, checkResult)]; [now] is the
    [new Date()] read for [lastChangedAt]. *)
Definition updateMonitoringState (siteName : string) (r : check_result) (now : Z)
  (s : server) : option change_event * server :=
  match get_prop s siteName with
  | Missing => (None, s)
  | OwnEntry st =>
      let previousStatus := js_of_opt_str (lastStatus st) in
      let newStatus := status r in
      let st1 := record_check st r in
      if js_not_null previousStatus && js_neq_str previousStatus newStatus then
        let st2 := record_change st1 now in
        (Some {| ce_siteName := siteName; ce_previousStatus := previousStatus;
                 ce_newStatus := newStatus; ce_changedAt := now;
                 ce_changeCount := JNum (changeCount st2) |},
         send_alert (set_state s siteName st2)
           (mk_alert siteName (JStr (url st)) newStatus previousStatus r))
      else (None, set_state s siteName st1)
  | Inherited b =>
      let x := builtin_get s b in
      let previousStatus := x_lastStatus x in
      let newStatus := status r in
      let x1 := ext_record_check x r in
      if js_not_null previousStatus && js_neq_str previousStatus newStatus then
        let x2 := ext_record_change x1 now in
        (Some {| ce_siteName := siteName; ce_previousStatus := previousStatus;
                 ce_newStatus := newStatus; ce_changedAt := now;
                 ce_changeCount := x_changeCount x2 |},
         send_alert (set_builtin s b x2)
           (mk_alert siteName JUndef newStatus previousStatus r))
      else (None, set_builtin s b x1)
  end.

(** The seed [initializeMonitoringState] stores for a target. *)
Definition seed (t : site) : site_state :=
  {| name := site_name t; url := site_url t;
     lastStatus := None; lastCheckedAt := None; lastChangedAt := None;
     changeCount := 0; lastStatusCode := None; lastError := None |}.

(** [initializeMonitoringState()] over the loaded [sites]: seed when
    [!monitoringState[site.name]]. *)
Definition initializeMonitoringState (sites : list site) (s : server) : server :=
  fold_left
    (fun s t =>
       match get_prop s (site_name t) with
       | Missing => set_state s (site_name t) (seed t)
       | _ => s
       end)
    sites s.

(** ** Scheduler: [performAutomaticMonitoring()] *)

(** One element of [results]: [{name, url, ...result}] from [.then], or
    the literal [{name, url, status: 'DOWN', error, checkedAt}] from
    [.catch], which has no [statusCode], [responseTime] or [errorType]. *)
Inductive entry :=
| EntryOk (nm u : string) (r : check_result)
| EntryCaught (nm u : string) (msg : string) (at_ : Z).

Definition entry_status (e : entry) : string :=
  match e with EntryOk _ _ r => status r | EntryCaught _ _ _ _ => "DOWN" end.

Definition entry_errorType (e : entry) : option string :=
  match e with EntryOk _ _ r => errorType r | EntryCaught _ _ _ _ => None end.

(** A dispatched target together with the environment of its probe. *)
Definition probe_of (p : site * probe_env) : promise check_result :=
  checkSite (site_url p.1) p.2.

(** The value the chained promise [checkSite(..).then(..).catch(..)]
    resolves with; it never rejects. *)
Definition settle (p : site * probe_env) : entry :=
  match probe_of p with
  | Resolved r => EntryOk (site_name p.1) (site_url p.1) r
  | Rejected m => EntryCaught (site_name p.1) (site_url p.1) m (pe_handled p.2)
  end.

(** The side effects of the handler run when a probe settles: the
    [.then] branch updates the tracker and records the change. *)
Definition on_settled (acc : list change_event * server) (p : site * probe_env)
  : list change_event * server :=
  let '(changes, s) := acc in
  match probe_of p with
  | Resolved r =>
      let '(ch, s') := updateMonitoringState (site_name p.1) r (pe_handled p.2) s in
      (match ch with Some c => changes ++ [c] | None => changes end, s')
  | Rejected _ => (changes, s)
  end.

(** The dispatched probes in the order they settle ([order] lists
    indices into the dispatch list). *)
Definition completions (probes : list (site * probe_env)) (order : list nat)
  : list (site * probe_env) :=
  omap (fun i => probes !! i) order.

(** [results.filter(r => r.status === st).length] *)
Definition count_status (st : string) (results : list entry) : nat :=
  length (List.filter (fun e => String.eqb (entry_status e) st) results).

Record cycle_summary := {
  total : nat;
  up : nat;
  down : nat
}.

Definition summarize (results : list entry) : cycle_summary :=
  {| total := length results;
     up := count_status "UP" results;
     down := count_status "DOWN" results |}.

Record cycle_report := {
  timestamp : Z;
  results : list entry;
  stateChanges : list change_event;
  summary : cycle_summary
}.

(** [performAutomaticMonitoring()] over the loaded sites paired with
    their probe environments; [now] is the report's timestamp. Every
    chained promise resolves, so [Promise.all] yields [map settle]. *)
Definition performAutomaticMonitoring (probes : list (site * probe_env))
  (order : list nat) (now : Z) (s : server) : cycle_report * server :=
  let rs := map settle probes in
  let '(changes, s') := fold_left on_settled (completions probes order) ([], s) in
  ({| timestamp := now; results := rs; stateChanges := changes;
      summary := summarize rs |}, s').

(** ** Query API: [GET /api/check] *)

Fixpoint first_rejected {A} (ps : list (promise A)) : option string :=
  match ps with
  | [] => None
  | Resolved _ :: ps' => first_rejected ps'
  | Rejected m :: _ => Some m
  end.

Fixpoint resolved_values {A} (ps : list (promise A)) : list A :=
  match ps with
  | [] => []
  | Resolved a :: ps' => a :: resolved_values ps'
  | Rejected _ :: ps' => resolved_values ps'
  end.

(** [Promise.all(ps)]: rejects with the first rejection to settle (in
    [order]), otherwise resolves with the values in dispatch order. *)
Definition promise_all {A} (ps : list (promise A)) (order : list nat)
  : promise (list A) :=
  match first_rejected (omap (fun i => ps !! i) order ++ ps) with
  | Some m => Rejected m
  | None => Resolved (resolved_values ps)
  end.

(** The JSON answers of the handler; the [uptime] string of the summary,
    a floating-point rendering of [up / total], is left out. *)
Inductive api_response :=
| ApiBadRequest (message : string)                  (** status 400 *)
| ApiServerError (message err : string)             (** status 500 *)
| ApiOk (ts : Z) (sm : cycle_summary) (sites : list entry).

(** The [GET /api/check] handler: probes every loaded site, the state
    is threaded through to show what the handler touches. *)
Definition api_check (probes : list (site * probe_env)) (order : list nat)
  (now : Z) (s : server) : api_response * server :=
  match probes with
  | [] => (ApiBadRequest "No sites configured in sites.json", s)
  | _ =>
      let checkPromises :=
        map (fun p => promise_map (EntryOk (site_name p.1) (site_url p.1)) (probe_of p))
          probes in
      match promise_all checkPromises order with
      | Rejected m => (ApiServerError "Error checking sites" m, s)
      | Resolved rs => (ApiOk now (summarize rs) rs, s)
      end
  end.

(** ** Configuration: [loadSites()] *)

(** The value of the [sites] property of the parsed [sites.json]. *)
Inductive sites_field :=
| SitesAbsent                     (** [undefined] *)
| SitesFalsy                      (** [null], [false], [0] or [""] *)
| SitesArray (l : list site)      (** an array of [{name, url}] objects *)
| SitesOtherTruthy.               (** any other truthy value *)

(** What [readFileSync] and [JSON.parse] give for [sites.json]. *)
Inductive sites_file :=
| FileUnreadable                  (** [readFileSync] throws *)
| FileInvalidJson                 (** [JSON.parse] throws *)
| FileJsonNull                    (** the file holds [null]: reading [.sites] throws *)
| FileJson (sites : sites_field). (** any other JSON value, by its [.sites] *)

(** The value [loadSites] returns: an array of sites, or the truthy
    non-array [sites] value passed through by [||]. *)
Inductive loaded_sites :=
| LoadedList (l : list site)
| LoadedOther.

(** [parsedData.sites || []] *)
Definition sites_or_empty (v : sites_field) : loaded_sites :=
  match v with
  | SitesArray l => LoadedList l
  | SitesOtherTruthy => LoadedOther
  | SitesAbsent | SitesFalsy => LoadedList []
  end.

(** [loadSites()]; every exception is caught and gives [[]]. *)
Definition loadSites (f : sites_file) : loaded_sites :=
  match f with
  | FileJson v => sites_or_empty v
  | FileUnreadable | FileInvalidJson | FileJsonNull => LoadedList []
  end.

(** ** Process: [setupAutomaticMonitoring()] *)

(** One run of the monitoring cycle: the probes of the sites loaded for
    it, the order they settle in, and the report's timestamp. *)
Record cycle_input := {
  ci_probes : list (site * probe_env);
  ci_order : list nat;
  ci_now : Z
}.

(** The tracker after startup: [initializeMonitoringState()] on the sites
    loaded then, followed by the cycles that have completed (the first
    one right away, then one per cron tick), taken one after another. *)
Definition monitoring_run (init_sites : list site) (cycles : list cycle_input) : server :=
  fold_left
    (fun s c => snd (performAutomaticMonitoring (ci_probes c) (ci_order c) (ci_now c) s))
    cycles (initializeMonitoringState init_sites server_empty).

(** ** Query API: [GET /api/status] and [GET /api/status/:siteName] *)

(** The site object of a JSON answer; [undefined] fields are [JUndef]. *)
Record site_view := {
  v_name : jsval;
  v_url : jsval;
  v_lastStatus : jsval;
  v_lastCheckedAt : jsval;
  v_lastChangedAt : jsval;
  v_changeCount : jsval;
  v_lastStatusCode : jsval;
  v_lastError : jsval
}.

Definition view_of_state (st : site_state) : site_view :=
  {| v_name := JStr (name st); v_url := JStr (url st);
     v_lastStatus := js_of_opt_str (lastStatus st);
     v_lastCheckedAt := js_of_opt_Z (lastCheckedAt st);
     v_lastChangedAt := js_of_opt_Z (lastChangedAt st);
     v_changeCount := JNum (changeCount st);
     v_lastStatusCode := js_of_opt_Z (lastStatusCode st);
     v_lastError := js_of_opt_str (lastError st) |}.

(** The [name] property of the builtin a prototype key reaches: the
    function [Object] for [constructor], nothing on [Object.prototype]
    itself, the method's own name for the others. *)
Definition builtin_fn_name (b : string) : jsval :=
  if String.eqb b "constructor" then JStr "Object"
  else if String.eqb b "__proto__" then JUndef
  else JStr b.

Definition view_of_builtin (b : string) (x : builtin_ext) : site_view :=
  {| v_name := builtin_fn_name b; v_url := JUndef;
     v_lastStatus := x_lastStatus x; v_lastCheckedAt := x_lastCheckedAt x;
     v_lastChangedAt := x_lastChangedAt x; v_changeCount := x_changeCount x;
     v_lastStatusCode := x_lastStatusCode x; v_lastError := x_lastError x |}.

Definition dq : string := String "034"%char EmptyString.

Inductive site_status_response :=
| SiteNotFound (message : string)      (** status 404 *)
| SiteFound (ts : Z) (v : site_view).

(** [getSiteState(siteName)]: [monitoringState[siteName] || null]. *)
Definition getSiteState (s : server) (siteName : string) : prop_ref :=
  get_prop s siteName.

(** The [GET /api/status/:siteName] handler. *)
Definition api_status_site (siteName : string) (now : Z) (s : server) : site_status_response :=
  match getSiteState s siteName with
  | Missing => SiteNotFound ("Site " ++ dq ++ siteName ++ dq ++ " not found in monitoring")%string
  | OwnEntry st => SiteFound now (view_of_state st)
  | Inherited b => SiteFound now (view_of_builtin b (builtin_get s b))
  end.

(** [v === s] for a string [s] *)
Definition js_is_str (v : jsval) (s : string) : bool :=
  match v with JStr s' => String.eqb s' s | _ => false end.

(** The [uptime] field: ['N/A'], or the percentage [up / total]
    rendered with [toFixed(1)] (the rendering is not modelled). *)
Inductive uptime_field :=
| UptimeNA
| UptimePercent (up total : nat).

Record status_summary := {
  s_total : nat;
  s_up : nat;
  s_down : nat;
  s_uptime : uptime_field
}.

(** The [GET /api/status] handler. [Object.values] lists the own entries
    in insertion order; the model lists them in the map's order, so only
    order-independent facts about [sites] are stated. *)
Definition api_status (now : Z) (s : server) : Z * status_summary * list site_view :=
  let statusData := map (fun kv => view_of_state kv.2) (map_to_list (monitoringState s)) in
  let upCount := length (List.filter (fun v => js_is_str (v_lastStatus v) "UP") statusData) in
  let downCount := length (List.filter (fun v => js_is_str (v_lastStatus v) "DOWN") statusData) in
  (now,
   {| s_total := length statusData; s_up := upCount; s_down := downCount;
      s_uptime := if Nat.ltb 0 (length statusData)
                  then UptimePercent upCount (length statusData) else UptimeNA |},
   statusData).

(** ** Notifier: [sendTelegramAlert(...)] *)


(** Truthiness of an optional string: [undefined] and [""] are falsy. *)
Definition js_truthy_str (o : option string) : bool :=
  match o with Some s => negb (String.eqb s "") | None => false end.


(** A value in a template literal; numbers are integers below [10^21] in
    magnitude, which [pretty] renders as JS does. *)
Definition render_jsval (v : jsval) : string :=
  match v with
  | JUndef => "undefined"
  | JNull => "null"
  | JStr s => s
  | JNum z => pretty z
  | JNaN => "NaN"
  end.

(** [v ?? d] inside a template literal *)
Definition nullish_or (v : jsval) (d : string) : string :=
  match v with JUndef | JNull => d | _ => render_jsval v end.


(** The [lines] array; [iso] renders a clock reading as
    [toISOString()]. [checkedAt] is always a non-empty ISO string, so
    [checkedAt || new Date().toISOString()] is [checkedAt]. *)
Definition telegram_lines (iso : Z -> string) (a : alert) : list string :=
  let emoji := if String.eqb (al_newStatus a) "UP" then "✅" else "🚨" in
  let header := (emoji ++ " Site status change")%string in
  [header;
   ("Site: " ++ al_siteName a)%string;
   ("URL: " ++ render_jsval (al_url a))%string;
   ("Status: " ++ al_newStatus a ++ " (was " ++ nullish_or (al_previousStatus a) "unknown" ++ ")")%string;
   ("HTTP: " ++ match al_statusCode a with Some z => pretty z | None => "N/A" end)%string;
   ("Response: " ++ pretty (al_responseTime a) ++ "ms")%string;
   ("Checked: " ++ iso (al_checkedAt a))%string]
  ++ (match al_error a with
      | Some e => if js_truthy_str (Some e) then [("Error: " ++ e)%string] else []
      | None => []
      end).




(** ** Routing of the Express app *)














(** ** Frontend caller: [pingBackend(retryCount, maxRetries)] *)

(** How one [fetch(API_BASE_URL + '/health')] attempt settles. *)
Inductive ping_outcome :=
| PingResponse (ok : bool)
| PingThrows (message : string).

Inductive ui_effect :=
| UiFetchHealth
| UiClearError
| UiShowError (message : string)
| UiRetryIn (delay : Z).

Definition warming_message (retryCount maxRetries : Z) : string :=
  ("⏳ Backend is warming up (cold start). Retrying in 2 seconds... (" ++
   pretty (retryCount + 1) ++ "/" ++ pretty maxRetries ++ ")")%string.

Definition not_responding_message : string :=
  "⚠️ Backend not responding. It may be overloaded. Try clicking " ++ dq ++ "Check Now" ++ dq
  ++ " manually.".

(** The attempts of [pingBackend], the retry scheduled with
    [setTimeout] included; [attempt n] is how the attempt with
    [retryCount = n] settles. [fuel] is [maxRetries - retryCount], the
    number of retries still allowed. *)
Fixpoint ping_go (fuel : nat) (retryCount maxRetries : Z) (attempt : Z -> ping_outcome)
  : list ui_effect :=
  UiFetchHealth ::
  match attempt retryCount with
  | PingResponse true => [UiClearError]
  | PingResponse false => []
  | PingThrows _ =>
      if retryCount <? maxRetries then
        UiShowError (warming_message retryCount maxRetries) :: UiRetryIn 2000 ::
        match fuel with
        | S fuel' => ping_go fuel' (retryCount + 1) maxRetries attempt
        | O => []
        end
      else [UiShowError not_responding_message]
  end.

Definition pingBackend (retryCount maxRetries : Z) (attempt : Z -> ping_outcome)
  : list ui_effect :=
  ping_go (Z.to_nat (maxRetries - retryCount)) retryCount maxRetries attempt.

Definition count_fetches (es : list ui_effect) : nat :=
  length (List.filter (fun e => match e with UiFetchHealth => true | _ => false end) es).

(** ** Helpers for the statements *)

(** The change test of [updateMonitoringState] on an own entry:
    [previousStatus !== null && previousStatus !== newStatus]. *)
Definition changed (prev : option string) (new_ : string) : bool :=
  match prev with Some p => negb (String.eqb p new_) | None => false end.

(** Number of changes along a sequence of observed statuses, starting
    from the status [prev] held before the first one. *)
Fixpoint transitions (prev : option string) (sts : list string) : Z :=
  match sts with
  | [] => 0
  | x :: rest => (if changed prev x then 1 else 0) + transitions (Some x) rest
  end.

(** Successive [updateMonitoringState(nm, r)] calls, each with the
    clock reading taken during that call. *)
Fixpoint update_all (nm : string) (rs : list (check_result * Z)) (s : server) : server :=
  match rs with
  | [] => s
  | (r, t) :: rest => update_all nm rest (snd (updateMonitoringState nm r t s))
  end.

(** The [errorType] labels [checkSite] writes. *)
Definition code_error_types : list string :=
  ["Timeout"; "DNS Error"; "Connection Error"; "SSL Warning"; "Network Error"; "Unknown"].

Definition site_A : site := {| site_name := "A"; site_url := "http://a.example" |}.

Definition env_at (o : ax_outcome) (t : Z) : probe_env :=
  {| pe_outcome := o; pe_start := t; pe_end := t + 50; pe_checked := t + 51;
     pe_handled := t + 52 |}.

Definition result_at (st : string) (t : Z) : check_result :=
  {| status := st; statusCode := Some (if String.eqb st "UP" then 200 else 500);
     responseTime := 50; checkedAt := t; error := None; errorType := None |}.

(** Two cycles over [site_A]: UP, then refused. *)
Definition cycle_A_then_B : list cycle_input :=
  [{| ci_probes := [(site_A, env_at (AxResponse 200) 0)]; ci_order := [0%nat]; ci_now := 60 |};
   {| ci_probes := [(site_A, env_at (AxError (Some "ECONNREFUSED") (Some "refused")) 300)];
      ci_order := [0%nat]; ci_now := 360 |}].

(** The error codes [checkSite] tests before reading [error.message]. *)
Definition known_error_codes : list string :=
  ["ECONNABORTED"; "ENOTFOUND"; "ECONNREFUSED"; "ERR_TLS_CERT_ALTNAME_INVALID";
   "CERT_HAS_EXPIRED"].

(** The shape every tracked entry keeps: it is stored under its own
    name, its status is [null], UP or DOWN, its counter is non-negative
    and zero exactly when it never changed, it is unchecked exactly when
    [lastCheckedAt] is [null], and an unchecked entry never changed. *)
Definition wf_site (k : string) (st : site_state) : Prop :=
  name st = k /\
  (lastStatus st = None \/ lastStatus st = Some "UP" \/ lastStatus st = Some "DOWN") /\
  0 <= changeCount st /\
  (changeCount st = 0 <-> lastChangedAt st = None) /\
  (lastStatus st = None <-> lastCheckedAt st = None) /\
  (lastStatus st = None -> changeCount st = 0).

Definition wf_tracker (s : server) : Prop :=
  map_Forall wf_site (monitoringState s).

(** ** Lemmas *)

Lemma js_change_test (prev : option string) (new_ : string) :
  js_not_null (js_of_opt_str prev) && js_neq_str (js_of_opt_str prev) new_ = changed prev new_.
Proof. by destruct prev. Qed.

Lemma changed_spec (prev : option string) (new_ : string) :
  changed prev new_ = true <-> exists p, prev = Some p /\ p <> new_.
Proof.
  destruct prev as [p|]; simpl.
  - rewrite negb_true_iff, String.eqb_neq. split.
    + intros H. eauto.
    + intros (p' & [= <-] & H). done.
  - split; [discriminate | intros (? & ? & _); discriminate].
Qed.

Lemma update_own (nm : string) (r : check_result) (t : Z) (s : server) (st : site_state) :
  monitoringState s !! nm = Some st ->
  updateMonitoringState nm r t s =
    if changed (lastStatus st) (status r) then
      (Some {| ce_siteName := nm; ce_previousStatus := js_of_opt_str (lastStatus st);
               ce_newStatus := status r; ce_changedAt := t;
               ce_changeCount := JNum (changeCount st + 1) |},
       send_alert (set_state s nm (record_change (record_check st r) t))
         (mk_alert nm (JStr (url st)) (status r) (js_of_opt_str (lastStatus st)) r))
    else (None, set_state s nm (record_check st r)).
Proof.
  intros H. unfold updateMonitoringState, get_prop. rewrite H.
  rewrite js_change_test. reflexivity.
Qed.

Lemma update_own_state (nm : string) (r : check_result) (t : Z) (s : server) (st : site_state) :
  monitoringState s !! nm = Some st ->
  monitoringState (snd (updateMonitoringState nm r t s)) !! nm =
    Some (if changed (lastStatus st) (status r)
          then record_change (record_check st r) t else record_check st r).
Proof.
  intros H. rewrite (update_own nm r t s st H).
  destruct (changed _ _); simpl; apply lookup_insert_eq.
Qed.

Lemma settle_status (p : site * probe_env) :
  entry_status (settle p) = "UP" \/ entry_status (settle p) = "DOWN".
Proof.
  destruct p as [t env]. unfold settle, probe_of, checkSite. simpl.
  destruct (pe_outcome env) as [c | code msg].
  - simpl. destruct ((200 <=? c) && (c <? 400)); auto.
  - destruct (classify_error code msg) as [[m ty] | m]; simpl; auto.
Qed.

Lemma count_up_down (l : list entry) :
  Forall (fun e => entry_status e = "UP" \/ entry_status e = "DOWN") l ->
  (count_status "UP" l + count_status "DOWN" l)%nat = length l.
Proof.
  unfold count_status. induction 1 as [| e l He Hl IH]; [done |].
  simpl. destruct He as [He | He]; rewrite He; simpl; lia.
Qed.

Lemma first_rejected_none {A} (l : list (promise A)) :
  (forall x, In x l -> exists a, x = Resolved a) -> first_rejected l = None.
Proof.
  induction l as [| x l IH]; intros H; [done |].
  destruct (H x (or_introl eq_refl)) as [a ->]. simpl.
  apply IH. intros y Hy. apply H. by right.
Qed.

Lemma first_rejected_some {A} (l : list (promise A)) (m : string) :
  In (Rejected m) l -> exists m', first_rejected l = Some m'.
Proof.
  induction l as [| x l IH]; simpl; [done |].
  intros [-> | Hin]; [eauto |].
  destruct x; eauto.
Qed.

Lemma resolved_values_settle (probes : list (site * probe_env)) :
  Forall (fun p => exists r, probe_of p = Resolved r) probes ->
  resolved_values
    (map (fun p => promise_map (EntryOk (site_name p.1) (site_url p.1)) (probe_of p)) probes)
  = map settle probes.
Proof.
  induction 1 as [| p l [r Hr] Hl IH]; [done |].
  simpl. unfold settle. rewrite Hr. simpl. by rewrite IH.
Qed.

Lemma code_is_false (code : option string) (c : string) :
  code_is code c = false <-> code <> Some c.
Proof.
  destruct code as [c'|]; simpl; [| split; [congruence | done]].
  rewrite String.eqb_neq. split; congruence.
Qed.

Lemma known_codes_code_is (code : option string) :
  (forall c, In c known_error_codes -> code <> Some c) <->
  code_is code "ECONNABORTED" = false /\ code_is code "ENOTFOUND" = false /\
  code_is code "ECONNREFUSED" = false /\
  code_is code "ERR_TLS_CERT_ALTNAME_INVALID" = false /\
  code_is code "CERT_HAS_EXPIRED" = false.
Proof.
  rewrite !code_is_false. unfold known_error_codes. simpl. split.
  - intros H. repeat split; apply H; tauto.
  - intros (? & ? & ? & ? & ?) c Hc. intuition congruence.
Qed.

Lemma classify_error_rejects (code msg : option string) (m : string) :
  classify_error code msg = Rejected m <->
  m = type_error_includes /\ msg = None /\
  code_is code "ECONNABORTED" = false /\ code_is code "ENOTFOUND" = false /\
  code_is code "ECONNREFUSED" = false /\
  code_is code "ERR_TLS_CERT_ALTNAME_INVALID" = false /\
  code_is code "CERT_HAS_EXPIRED" = false.
Proof.
  unfold classify_error.
  destruct (code_is code "ECONNABORTED"), (code_is code "ENOTFOUND"),
    (code_is code "ECONNREFUSED"), (code_is code "ERR_TLS_CERT_ALTNAME_INVALID"),
    (code_is code "CERT_HAS_EXPIRED"); simpl;
    try (split; [discriminate | intuition discriminate]).
  destruct msg as [s|].
  - split; [| intuition discriminate].
    destruct (includes s "certificate"), (includes s "getaddrinfo"),
      (negb (String.eqb s "")); discriminate.
  - split; [intros [= <-]; tauto | intros (-> & _); reflexivity].
Qed.

Lemma update_ms_other (nm k : string) (r : check_result) (t : Z) (s : server) :
  k <> nm ->
  monitoringState (snd (updateMonitoringState nm r t s)) !! k = monitoringState s !! k.
Proof.
  intros Hk. unfold updateMonitoringState.
  destruct (get_prop s nm) as [st | b |]; simpl; [| | done].
  - destruct (_ && _); simpl; by rewrite lookup_insert_ne by congruence.
  - destruct (_ && _); reflexivity.
Qed.

Lemma on_settled_frame (ps : list (site * probe_env)) (acc : list change_event * server) (k : string) :
  (forall p r, In p ps -> probe_of p = Resolved r -> site_name p.1 <> k) ->
  monitoringState (fold_left on_settled ps acc).2 !! k = monitoringState acc.2 !! k.
Proof.
  revert acc. induction ps as [| p ps IH]; intros [changes s] Hk; simpl; [done|].
  rewrite IH by (intros q r Hq; apply Hk; by right).
  unfold on_settled. destruct (probe_of p) as [r|] eqn:Hp; [| done].
  pose proof (update_ms_other (site_name p.1) k r (pe_handled p.2) s
                (not_eq_sym (Hk p r (or_introl eq_refl) Hp))) as H.
  destruct (updateMonitoringState _ _ _ _). exact H.
Qed.

(** ** Claims *)

(** C1. A probe that receives a response with integer status code [c]
    resolves with status UP if and only if [200 <= c < 400], and DOWN
    otherwise; the code is recorded in [statusCode], and the result
    carries no error and no error type. *)
Theorem checkSite_response_classification (u : string) (c t0 t1 t2 t3 : Z) :
  exists r,
    checkSite u {| pe_outcome := AxResponse c; pe_start := t0; pe_end := t1;
                   pe_checked := t2; pe_handled := t3 |} = Resolved r /\
    (status r = "UP" <-> 200 <= c < 400) /\
    (status r = "DOWN" <-> ~ (200 <= c < 400)) /\
    statusCode r = Some c /\ error r = None /\ errorType r = None.
Proof.
  eexists. split; [reflexivity |]. simpl.
  destruct (200 <=? c) eqn:E1; destruct (c <? 400) eqn:E2; simpl;
    rewrite ?Z.leb_le, ?Z.leb_gt, ?Z.ltb_lt, ?Z.ltb_ge in *;
    (split; [split; intros; (discriminate || lia || done) |]);
    (split; [split; intros; (discriminate || lia || done) |]); auto.
Qed.

(** C6 (code bug). A probe that receives no response does not always
    yield a DOWN result with an error kind: when the error carries no
    [message] and none of the five codes [checkSite] tests, the [catch]
    handler evaluates [error.message.includes], which throws a
    [TypeError], so [checkSite] rejects and produces no result at all. *)
Theorem checkSite_no_message_rejects (u : string) (code : option string) (t0 t1 t2 t3 : Z)
  (Hc : forall c, In c known_error_codes -> code <> Some c) :
  let env := {| pe_outcome := AxError code None; pe_start := t0; pe_end := t1;
                pe_checked := t2; pe_handled := t3 |} in
  checkSite u env = Rejected type_error_includes /\
  ~ (exists r, checkSite u env = Resolved r).
Proof.
  intros env. apply known_codes_code_is in Hc.
  assert (H : checkSite u env = Rejected type_error_includes).
  { unfold checkSite. simpl.
    assert (classify_error code None = Rejected type_error_includes) as ->
      by (apply classify_error_rejects; tauto).
    reflexivity. }
  split; [exact H|]. intros [r Hr]. rewrite H in Hr. discriminate.
Qed.

Lemma checkSite_no_message_rejects_witness :
  checkSite "https://c.example"
    {| pe_outcome := AxError (Some "EAI_AGAIN") None; pe_start := 0; pe_end := 40;
       pe_checked := 41; pe_handled := 42 |} = Rejected type_error_includes.
Proof.
  apply (proj1 (checkSite_no_message_rejects "https://c.example" (Some "EAI_AGAIN") 0 40 41 42
                  ltac:(intros c Hc; simpl in Hc;
                        repeat (destruct Hc as [<- | Hc]; [discriminate|]); destruct Hc))).
Defined.

(** When the transport error does carry a message, the probe resolves
    with status DOWN, no status code, the elapsed time [t1 - t0] as
    [responseTime], and one of the six labels the code writes:
    "Timeout", "DNS Error", "Connection Error", "SSL Warning",
    "Network Error", "Unknown". *)
Lemma checkSite_no_response_result (u : string) (code : option string) (m : string)
  (t0 t1 t2 t3 : Z) :
  exists r,
    checkSite u {| pe_outcome := AxError code (Some m); pe_start := t0; pe_end := t1;
                   pe_checked := t2; pe_handled := t3 |} = Resolved r /\
    status r = "DOWN" /\ statusCode r = None /\ responseTime r = t1 - t0 /\
    exists ty, errorType r = Some ty /\ In ty code_error_types.
Proof.
  unfold checkSite, classify_error. simpl.
  repeat match goal with
         | |- context [if ?b then _ else _] => destruct b
         end;
    (eexists; split; [reflexivity |]); simpl;
    (split; [done |]); (split; [done |]); (split; [done |]);
    (eexists; split; [reflexivity |]); unfold code_error_types; simpl; tauto.
Qed.

(** C7. For every completed monitoring cycle, the summary satisfies
    [up + down = total]: every result of the cycle has status UP or
    DOWN. *)
Theorem cycle_summary_up_down_total (probes : list (site * probe_env)) (order : list nat)
  (now : Z) (s : server) :
  let rep := fst (performAutomaticMonitoring probes order now s) in
  (up (summary rep) + down (summary rep))%nat = total (summary rep).
Proof.
  unfold performAutomaticMonitoring.
  destruct (fold_left on_settled (completions probes order) ([], s)) as [ch s'].
  simpl. apply count_up_down.
  apply List.Forall_map, List.Forall_forall. intros p _. apply settle_status.
Qed.

(** C2. On a tracked site, [changeCount] grows by exactly one for each
    update whose new status differs from the non-null status held before
    it, and the first observation (previous status [null]) never counts;
    in particular the updates UP, UP, DOWN, DOWN, UP on a freshly seeded
    site leave [changeCount = 2]. *)
Theorem changeCount_counts_transitions (nm : string) (s : server) (st : site_state)
  (rs : list (check_result * Z)) :
  monitoringState s !! nm = Some st ->
  exists st',
    monitoringState (update_all nm rs s) !! nm = Some st' /\
    changeCount st' = changeCount st + transitions (lastStatus st) (map (fun rt => status rt.1) rs) /\
    (lastStatus st = None -> changeCount st = 0 ->
     map (fun rt => status rt.1) rs = ["UP"; "UP"; "DOWN"; "DOWN"; "UP"] ->
     changeCount st' = 2).
Proof.
  assert (Hgen : forall s st,
    monitoringState s !! nm = Some st ->
    exists st', monitoringState (update_all nm rs s) !! nm = Some st' /\
      changeCount st' = changeCount st + transitions (lastStatus st) (map (fun rt => status rt.1) rs)).
  { induction rs as [| [r t] rs IH]; intros s0 st0 H0; simpl.
    - exists st0. split; [done | lia].
    - pose proof (update_own_state nm r t s0 st0 H0) as H1.
      destruct (IH _ _ H1) as (st' & Hst' & Hcnt). exists st'. split; [done |].
      rewrite Hcnt. destruct (changed (lastStatus st0) (status r)); simpl; lia. }
  intros H. destruct (Hgen s st H) as (st' & Hst' & Hcnt).
  exists st'. split; [done |]. split; [done |].
  intros Hnone Hzero Hsts. rewrite Hcnt, Hnone, Hzero, Hsts. reflexivity.
Qed.

Lemma changeCount_counts_transitions_witness :
  monitoringState (initializeMonitoringState [site_A] server_empty) !! "A" = Some (seed site_A) /\
  exists st',
    monitoringState
      (update_all "A" [(result_at "UP" 100, 101); (result_at "UP" 200, 201);
                       (result_at "DOWN" 300, 301); (result_at "DOWN" 400, 401);
                       (result_at "UP" 500, 501)]
         (initializeMonitoringState [site_A] server_empty)) !! "A" = Some st' /\
    changeCount st' = changeCount (seed site_A) +
      transitions (lastStatus (seed site_A)) ["UP"; "UP"; "DOWN"; "DOWN"; "UP"] /\
    (lastStatus (seed site_A) = None -> changeCount (seed site_A) = 0 ->
     ["UP"; "UP"; "DOWN"; "DOWN"; "UP"] = ["UP"; "UP"; "DOWN"; "DOWN"; "UP"] ->
     changeCount st' = 2).
Proof.
  split; [reflexivity |].
  apply (changeCount_counts_transitions "A" (initializeMonitoringState [site_A] server_empty)
           (seed site_A)).
  reflexivity.
Defined.

(** C3 (as stated). The second of two probes UP then DOWN has
    [checkedAt = 2000], while [lastChangedAt] is the clock reading
    [2001] taken inside [updateMonitoringState]: they differ. *)
Lemma lastChangedAt_not_probe_time :
  exists st',
    monitoringState
      (update_all "A" [(result_at "UP" 1000, 1001); (result_at "DOWN" 2000, 2001)]
         (initializeMonitoringState [site_A] server_empty)) !! "A" = Some st' /\
    lastChangedAt st' = Some 2001 /\
    lastChangedAt st' <> Some (checkedAt (result_at "DOWN" 2000)).
Proof.
  eexists. split; [reflexivity |]. split; [reflexivity |]. simpl. congruence.
Qed.

(** C3 (amended). On a tracked site, [updateMonitoringState] returns a
    change event carrying the name, the previous and new status, the
    change time and the new count if and only if the previous status is
    non-null and differs from the new one; exactly then [changeCount] is
    incremented and [lastChangedAt] is set to the clock reading [t] taken
    during that update (otherwise both are kept). For a seeded site
    probed UP then DOWN, only the second update emits an event,
    [changeCount = 1] and [lastChangedAt] is the clock reading of the
    second update. *)
Theorem update_change_event_iff :
  (forall (nm : string) (r : check_result) (t : Z) (s : server) (st : site_state),
     monitoringState s !! nm = Some st ->
     let '(ev, s') := updateMonitoringState nm r t s in
     (is_Some ev <-> exists p, lastStatus st = Some p /\ p <> status r) /\
     (forall p, lastStatus st = Some p -> p <> status r ->
        ev = Some {| ce_siteName := nm; ce_previousStatus := JStr p;
                     ce_newStatus := status r; ce_changedAt := t;
                     ce_changeCount := JNum (changeCount st + 1) |} /\
        exists st', monitoringState s' !! nm = Some st' /\
          lastStatus st' = Some (status r) /\
          changeCount st' = changeCount st + 1 /\ lastChangedAt st' = Some t) /\
     (ev = None ->
        exists st', monitoringState s' !! nm = Some st' /\
          lastStatus st' = Some (status r) /\
          changeCount st' = changeCount st /\ lastChangedAt st' = lastChangedAt st)) /\
  (forall (nm : string) (s : server) (st : site_state) (r1 r2 : check_result) (t1 t2 : Z),
     monitoringState s !! nm = Some st -> lastStatus st = None -> changeCount st = 0 ->
     status r1 = "UP" -> status r2 = "DOWN" ->
     let '(ev1, s1) := updateMonitoringState nm r1 t1 s in
     let '(ev2, s2) := updateMonitoringState nm r2 t2 s1 in
     ev1 = None /\ is_Some ev2 /\
     exists st', monitoringState s2 !! nm = Some st' /\
       changeCount st' = 1 /\ lastChangedAt st' = Some t2).
Proof.
  split.
  - intros nm r t s st H. rewrite (update_own nm r t s st H).
    pose proof (changed_spec (lastStatus st) (status r)) as Hc.
    destruct (changed (lastStatus st) (status r)) eqn:E.
    + split; [split; [intros _; apply Hc; done | intros _; eauto] |].
      split.
      * intros p Hp Hne. rewrite Hp. split; [done |].
        eexists. split; [apply lookup_insert_eq |]. simpl. done.
      * discriminate.
    + split; [split; [intros [? ?]; discriminate | intros Hex; apply Hc in Hex; discriminate] |].
      split.
      * intros p Hp Hne. exfalso. assert (false = true) by (apply Hc; eauto). discriminate.
      * intros _. eexists. split; [apply lookup_insert_eq |]. simpl. done.
  - intros nm s st r1 r2 t1 t2 H Hnone Hzero H1 H2.
    rewrite (update_own nm r1 t1 s st H), Hnone. simpl.
    assert (Hs1 : monitoringState (set_state s nm (record_check st r1)) !! nm
                  = Some (record_check st r1)) by apply lookup_insert_eq.
    rewrite (update_own nm r2 t2 _ _ Hs1). simpl. rewrite H1, H2. simpl.
    split; [done |]. split; [eexists; done |].
    eexists. split; [apply lookup_insert_eq |]. simpl. rewrite Hzero. done.
Qed.

Lemma update_change_event_iff_witness :
  monitoringState (initializeMonitoringState [site_A] server_empty) !! "A" = Some (seed site_A) /\
  (let '(ev1, s1) := updateMonitoringState "A" (result_at "UP" 1000) 1001
                       (initializeMonitoringState [site_A] server_empty) in
   let '(ev2, s2) := updateMonitoringState "A" (result_at "DOWN" 2000) 2001 s1 in
   ev1 = None /\ is_Some ev2 /\
   exists st', monitoringState s2 !! "A" = Some st' /\
     changeCount st' = 1 /\ lastChangedAt st' = Some 2001).
Proof.
  split; [reflexivity |].
  apply (proj2 update_change_event_iff "A" (initializeMonitoringState [site_A] server_empty)
           (seed site_A)); reflexivity.
Defined.

(** A probe whose transport error carries no [message]: [checkSite]
    itself rejects with a [TypeError]. *)
Definition probe_failing : site * probe_env :=
  (site_A, env_at (AxError None None) 5000).

(** C4 (as stated). A target whose probe rejects ends up in the cycle
    report as a DOWN result, but without any [errorType]: not with
    [errorKind = Unknown]. *)
Lemma cycle_caught_failure_has_no_error_kind :
  probe_of probe_failing = Rejected type_error_includes /\
  results (fst (performAutomaticMonitoring [probe_failing] [0%nat] 6000 server_empty))
    = [EntryCaught "A" "http://a.example" type_error_includes 5052] /\
  entry_errorType (settle probe_failing) <> Some "Unknown".
Proof.
  split; [reflexivity |]. split; [reflexivity |]. simpl. discriminate.
Qed.

(** C4 (amended). A monitoring cycle always completes with one result
    per dispatched target, so [total] is the number of targets; a target
    whose probe rejects is turned by [.catch] into a DOWN result carrying
    its name, url and the error message, with no [errorType]. The failed
    probe updates nothing: its handler leaves the change list and the
    server (tracker, alerts) as they were, so a target none of whose
    completed probes resolved keeps its previous tracker entry. *)
Theorem cycle_isolates_probe_failures (probes : list (site * probe_env)) (order : list nat)
  (now : Z) (s : server) :
  let '(rep, s') := performAutomaticMonitoring probes order now s in
  total (summary rep) = length probes /\
  results rep = map settle probes /\
  (forall p m, In p probes -> probe_of p = Rejected m ->
     settle p = EntryCaught (site_name p.1) (site_url p.1) m (pe_handled p.2) /\
     entry_status (settle p) = "DOWN" /\ entry_errorType (settle p) = None /\
     forall acc, on_settled acc p = acc) /\
  (forall k, (forall p r, In p (completions probes order) -> probe_of p = Resolved r ->
                site_name p.1 <> k) ->
     monitoringState s' !! k = monitoringState s !! k).
Proof.
  unfold performAutomaticMonitoring.
  pose proof (fun k Hk => on_settled_frame (completions probes order) ([], s) k Hk) as Hf.
  destruct (fold_left on_settled (completions probes order) ([], s)) as [ch s'].
  simpl. split; [apply length_map |]. split; [done |]. split.
  - intros p m _ Hp. unfold settle. rewrite Hp. repeat split.
    intros [changes s0]. unfold on_settled. rewrite Hp. reflexivity.
  - exact Hf.
Qed.

Lemma cycle_isolates_probe_failures_witness :
  let s0 := initializeMonitoringState [site_A] server_empty in
  settle probe_failing
    = EntryCaught (site_name probe_failing.1) (site_url probe_failing.1)
        type_error_includes (pe_handled probe_failing.2) /\
  entry_errorType (settle probe_failing) = None /\
  monitoringState (snd (performAutomaticMonitoring [probe_failing] [0%nat] 6000 s0)) !! "A"
  = monitoringState s0 !! "A".
Proof.
  intros s0.
  pose proof (cycle_isolates_probe_failures [probe_failing] [0%nat] 6000 s0) as H.
  destruct (performAutomaticMonitoring [probe_failing] [0%nat] 6000 s0) as [rep s'] eqn:E.
  destruct H as (_ & _ & Hc & Hf).
  destruct (Hc probe_failing type_error_includes (or_introl eq_refl) eq_refl)
    as (H1 & _ & H2 & _).
  split; [exact H1|]. split; [exact H2|].
  simpl. apply Hf.
  intros p r Hp Hr. vm_compute in Hp. destruct Hp as [<- | []].
  vm_compute in Hr. discriminate Hr.
Defined.

Lemma all_resolved_settling {A} (ps : list (promise A)) (order : list nat) :
  (forall x, In x ps -> exists a, x = Resolved a) ->
  forall x, In x (omap (fun i => ps !! i) order ++ ps) -> exists a, x = Resolved a.
Proof.
  intros H x Hx. apply in_app_or in Hx as [Hx | Hx]; [| auto].
  apply list_elem_of_In, list_elem_of_omap in Hx as (i & _ & Hi).
  apply H, list_elem_of_In. by eapply list_elem_of_lookup_2.
Qed.

Definition probe_ok : site * probe_env := (site_A, env_at (AxResponse 200) 0).

(** C8 (as stated). For the same probe outcomes the manual check and
    the scheduled cycle disagree: with one probe that rejects, the
    manual handler answers with a server error while the cycle reports
    the target DOWN. *)
Lemma manual_check_differs_from_cycle :
  fst (api_check [probe_failing] [0%nat] 6000 server_empty)
    = ApiServerError "Error checking sites" type_error_includes /\
  summary (fst (performAutomaticMonitoring [probe_failing] [0%nat] 6000 server_empty))
    = {| total := 1; up := 0; down := 1 |} /\
  forall ts,
    fst (api_check [probe_failing] [0%nat] 6000 server_empty)
    <> ApiOk ts (summary (fst (performAutomaticMonitoring [probe_failing] [0%nat] 6000 server_empty)))
         (results (fst (performAutomaticMonitoring [probe_failing] [0%nat] 6000 server_empty))).
Proof.
  split; [reflexivity |]. split; [reflexivity |].
  intros ts. vm_compute. discriminate.
Qed.

(** C8 (amended). The manual [GET /api/check] path is separate from
    [performAutomaticMonitoring]: with no sites it answers 400; if any
    probe rejects, the whole request fails with a 500 error; when the
    site list is non-empty and every probe resolves, it returns the same
    per-site results and the same total/up/down summary as the scheduled
    cycle on the same probe outcomes. *)
Theorem manual_check_agrees_on_resolved_probes :
  (forall (order : list nat) (now : Z) (s : server),
     fst (api_check [] order now s) = ApiBadRequest "No sites configured in sites.json") /\
  (forall (probes : list (site * probe_env)) (order : list nat) (now : Z) (s : server),
     probes <> [] -> Forall (fun p => exists r, probe_of p = Resolved r) probes ->
     let rep := fst (performAutomaticMonitoring probes order now s) in
     fst (api_check probes order now s) = ApiOk now (summary rep) (results rep)) /\
  (forall (probes : list (site * probe_env)) (order : list nat) (now : Z) (s : server) p m,
     In p probes -> probe_of p = Rejected m ->
     exists m', fst (api_check probes order now s) = ApiServerError "Error checking sites" m').
Proof.
  split; [done |]. split.
  - intros probes order now s Hne Hall.
    unfold performAutomaticMonitoring.
    destruct (fold_left on_settled (completions probes order) ([], s)) as [ch s'].
    simpl. unfold api_check, promise_all.
    rewrite first_rejected_none.
    + rewrite (resolved_values_settle probes Hall).
      destruct probes; [done | reflexivity].
    + apply all_resolved_settling. intros x Hx.
      apply in_map_iff in Hx as (p & <- & Hp).
      rewrite List.Forall_forall in Hall. destruct (Hall p Hp) as [r Hr].
      rewrite Hr. eauto.
  - intros probes order now s p m Hin Hp.
    unfold api_check, promise_all.
    destruct (first_rejected_some
               (omap (fun i => (map (fun p => promise_map (EntryOk (site_name p.1) (site_url p.1))
                                                (probe_of p)) probes) !! i) order
                ++ map (fun p => promise_map (EntryOk (site_name p.1) (site_url p.1))
                                   (probe_of p)) probes) m) as [m' Hm'].
    { apply in_or_app. right.
      change (Rejected m) with
        (promise_map (EntryOk (site_name p.1) (site_url p.1)) (Rejected (A:=check_result) m)).
      rewrite <- Hp. apply in_map_iff. eauto. }
    destruct probes; [done |]. rewrite Hm'. eauto.
Qed.

Lemma manual_check_agrees_on_resolved_probes_witness :
  [probe_ok] <> [] /\ Forall (fun p => exists r, probe_of p = Resolved r) [probe_ok] /\
  fst (api_check [probe_ok] [0%nat] 100 server_empty)
    = ApiOk 100 (summary (fst (performAutomaticMonitoring [probe_ok] [0%nat] 100 server_empty)))
        (results (fst (performAutomaticMonitoring [probe_ok] [0%nat] 100 server_empty))).
Proof.
  assert (Hne : [probe_ok] <> []) by discriminate.
  assert (Hall : Forall (fun p => exists r, probe_of p = Resolved r) [probe_ok]).
  { constructor; [eexists; reflexivity | constructor]. }
  split; [exact Hne |]. split; [exact Hall |].
  exact (proj1 (proj2 manual_check_agrees_on_resolved_probes) [probe_ok] [0%nat] 100
           server_empty Hne Hall).
Defined.

(** C9. The manual [GET /api/check] handler leaves the tracker state
    untouched: the per-site map (every [lastStatus], [changeCount] and
    [lastChangedAt]), the builtin objects and the notifications sent are
    the same afterwards, and its answer carries no change event. *)
Theorem manual_check_preserves_state (probes : list (site * probe_env)) (order : list nat)
  (now : Z) (s : server) :
  snd (api_check probes order now s) = s.
Proof.
  unfold api_check. destruct probes; [done |].
  by destruct (promise_all _ _).
Qed.

(** For a name that is neither an own entry nor a member of
    [Object.prototype], [updateMonitoringState] returns [undefined] and
    changes nothing. *)
Lemma update_missing_noop (nm : string) (r : check_result) (t : Z) (s : server) :
  monitoringState s !! nm = None -> nm ∉ object_prototype_names ->
  updateMonitoringState nm r t s = (None, s).
Proof.
  intros H Hn. unfold updateMonitoringState, get_prop. rewrite H.
  by rewrite bool_decide_eq_false_2.
Qed.

(** For a name outside [Object.prototype], a second initialisation keeps
    an existing entry and seeds a missing one. *)
Lemma initialize_step_own (t : site) (s : server) :
  site_name t ∉ object_prototype_names ->
  monitoringState
    (initializeMonitoringState [t] s) !! site_name t
  = Some (default (seed t) (monitoringState s !! site_name t)).
Proof.
  intros Hn. simpl. unfold get_prop.
  destruct (monitoringState s !! site_name t) eqn:E; [done |].
  rewrite bool_decide_eq_false_2 by done. apply lookup_insert_eq.
Qed.

(** C5. A target named ["constructor"] is never seeded: on an empty
    state, [!monitoringState["constructor"]] is false because the lookup
    finds [Object.prototype.constructor], so after initialisation the map
    still has no entry for it. *)
Theorem initialize_skips_prototype_name :
  monitoringState
    (initializeMonitoringState
       [{| site_name := "constructor"; site_url := "https://example.com" |}] server_empty)
    !! "constructor" = None.
Proof. reflexivity. Qed.

(** C10. Updating the name ["constructor"], which is not an entry of the
    state map, is not a no-op: the lookup finds
    [Object.prototype.constructor], its [lastStatus] is [undefined]
    (not [null]), so the call returns a change event (with a [NaN]
    count) and sends a notification. *)
Theorem update_prototype_name_emits_event :
  monitoringState server_empty !! "constructor" = None /\
  fst (updateMonitoringState "constructor" (result_at "UP" 1000) 1001 server_empty)
    = Some {| ce_siteName := "constructor"; ce_previousStatus := JUndef;
              ce_newStatus := "UP"; ce_changedAt := 1001; ce_changeCount := JNaN |} /\
  length (telegramCalls (snd (updateMonitoringState "constructor" (result_at "UP" 1000) 1001
                                 server_empty))) = 1%nat.
Proof. split; [reflexivity |]. split; reflexivity. Qed.

(** ** Further properties of the code *)

(** [checkSite] rejects exactly when the request fails with an error
    whose [code] is none of the five it tests and which has no
    [message]: the [.includes] call then throws a [TypeError]. *)
Theorem checkSite_rejects_iff (u : string) (env : probe_env) (m : string) :
  checkSite u env = Rejected m <->
  m = type_error_includes /\
  exists code, pe_outcome env = AxError code None /\
    forall c, In c known_error_codes -> code <> Some c.
Proof.
  unfold checkSite. destruct (pe_outcome env) as [h | code msg].
  - split; [discriminate | intros (_ & code & [=] & _)].
  - assert (promise_map (fun '(msg0, ty) =>
       {| status := "DOWN"; statusCode := None; responseTime := pe_end env - pe_start env;
          checkedAt := pe_checked env; error := Some msg0; errorType := Some ty |})
       (classify_error code msg) = Rejected m <-> classify_error code msg = Rejected m) as ->
      by (destruct (classify_error code msg) as [[]|]; simpl; split; congruence).
    rewrite classify_error_rejects. split.
    + intros (-> & -> & H). split; [done|]. exists code. split; [done|].
      apply known_codes_code_is. exact H.
    + intros (-> & code' & [= <- ->] & H). split; [done|]. split; [done|].
      apply known_codes_code_is. exact H.
Qed.

Lemma checkSite_rejects_iff_witness :
  checkSite "https://c.example" (env_at (AxError (Some "EAI_AGAIN") None) 0)
  = Rejected type_error_includes.
Proof.
  apply (proj2 (checkSite_rejects_iff "https://c.example"
                  (env_at (AxError (Some "EAI_AGAIN") None) 0) type_error_includes)).
  split; [reflexivity|]. exists (Some "EAI_AGAIN"). split; [reflexivity|].
  intros c Hc. simpl in Hc.
  repeat (destruct Hc as [<- | Hc]; [discriminate|]). destruct Hc.
Defined.

Lemma checkSite_error_cases (u : string) (env : probe_env) (r : check_result) :
  checkSite u env = Resolved r ->
  (exists h, pe_outcome env = AxResponse h /\ errorType r = None) \/
  (exists code msg e ty, pe_outcome env = AxError code msg /\
     classify_error code msg = Resolved (e, ty) /\
     error r = Some e /\ errorType r = Some ty).
Proof.
  unfold checkSite. destruct (pe_outcome env) as [h | code msg].
  - intros [= <-]. left. eauto.
  - destruct (classify_error code msg) as [[e ty] | ] eqn:E; simpl; [|discriminate].
    intros [= <-]. right. do 4 eexists. eauto.
Qed.

Lemma classify_error_labels (code msg : option string) (e ty : string) :
  classify_error code msg = Resolved (e, ty) ->
  (ty = "Timeout" <-> code = Some "ECONNABORTED") /\
  (ty = "DNS Error" <-> code = Some "ENOTFOUND") /\
  (ty = "Connection Error" <-> code = Some "ECONNREFUSED").
Proof.
  unfold classify_error.
  destruct (code_is code "ECONNABORTED") eqn:E1;
    [intros [= <- <-]; destruct code as [c|]; simpl in E1; [|discriminate];
     apply String.eqb_eq in E1; subst; intuition congruence|].
  destruct (code_is code "ENOTFOUND") eqn:E2;
    [intros [= <- <-]; destruct code as [c|]; simpl in E2; [|discriminate];
     apply String.eqb_eq in E2; subst; intuition congruence|].
  destruct (code_is code "ECONNREFUSED") eqn:E3;
    [intros [= <- <-]; destruct code as [c|]; simpl in E3; [|discriminate];
     apply String.eqb_eq in E3; subst; intuition congruence|].
  apply code_is_false in E1, E2, E3.
  assert (Hother : ty <> "Timeout" /\ ty <> "DNS Error" /\ ty <> "Connection Error" ->
                   (ty = "Timeout" <-> code = Some "ECONNABORTED") /\
                   (ty = "DNS Error" <-> code = Some "ENOTFOUND") /\
                   (ty = "Connection Error" <-> code = Some "ECONNREFUSED"))
    by intuition congruence.
  intros H. apply Hother.
  destruct (_ || _); [injection H as <- <-; repeat split; discriminate|].
  destruct msg as [m|]; [|discriminate].
  destruct (includes m "certificate"); [injection H as <- <-; repeat split; discriminate|].
  destruct (includes m "getaddrinfo"); [injection H as <- <-; repeat split; discriminate|].
  destruct (negb (String.eqb m "")); injection H as <- <-; repeat split; discriminate.
Qed.

(** A resolved probe is labelled "Timeout", "DNS Error" or
    "Connection Error" exactly when axios failed with the code
    ECONNABORTED, ENOTFOUND or ECONNREFUSED respectively, whatever the
    message; a probe that got an HTTP response carries no error type. *)
Theorem checkSite_code_labels (u : string) (env : probe_env) (r : check_result)
  (H : checkSite u env = Resolved r) :
  (errorType r = Some "Timeout" <-> exists msg, pe_outcome env = AxError (Some "ECONNABORTED") msg) /\
  (errorType r = Some "DNS Error" <-> exists msg, pe_outcome env = AxError (Some "ENOTFOUND") msg) /\
  (errorType r = Some "Connection Error" <-> exists msg, pe_outcome env = AxError (Some "ECONNREFUSED") msg) /\
  ((exists h, pe_outcome env = AxResponse h) -> errorType r = None).
Proof.
  destruct (checkSite_error_cases u env r H)
    as [(h & Ho & Ht) | (code & msg & e & ty & Ho & Hc & He & Ht)];
    rewrite Ho, Ht.
  - repeat split; try (intros [? [=]]); try discriminate.
  - destruct (classify_error_labels code msg e ty Hc) as (T1 & T2 & T3).
    repeat split.
    + intros [= ->]. exists msg. f_equal. apply T1. done.
    + intros [? [= -> _]]. f_equal. apply T1. done.
    + intros [= ->]. exists msg. f_equal. apply T2. done.
    + intros [? [= -> _]]. f_equal. apply T2. done.
    + intros [= ->]. exists msg. f_equal. apply T3. done.
    + intros [? [= -> _]]. f_equal. apply T3. done.
    + intros [? [=]].
Qed.

Lemma checkSite_code_labels_witness :
  exists r, checkSite "https://a.example"
    (env_at (AxError (Some "ENOTFOUND") (Some "getaddrinfo ENOTFOUND a.example")) 10)
    = Resolved r /\ errorType r = Some "DNS Error".
Proof.
  eexists. split; [reflexivity|].
  match goal with
  | |- errorType ?r = _ =>
      apply (proj2 (proj1 (proj2 (checkSite_code_labels "https://a.example"
        (env_at (AxError (Some "ENOTFOUND") (Some "getaddrinfo ENOTFOUND a.example")) 10)
        r eq_refl))))
  end.
  eexists. reflexivity.
Defined.

(** An error with none of the tested codes whose message mentions
    neither "certificate" nor "getaddrinfo" is reported as DOWN with
    type "Unknown" and the message itself as the error text, or
    "Unknown error" when the message is empty. *)
Theorem checkSite_unclassified_message (u : string) (env : probe_env)
  (code : option string) (m : string)
  (Ho : pe_outcome env = AxError code (Some m))
  (Hc : forall c, In c known_error_codes -> code <> Some c)
  (Hcert : includes m "certificate" = false)
  (Hdns : includes m "getaddrinfo" = false) :
  exists r, checkSite u env = Resolved r /\ status r = "DOWN" /\
    statusCode r = None /\ errorType r = Some "Unknown" /\
    error r = Some (if String.eqb m "" then "Unknown error" else m).
Proof.
  apply known_codes_code_is in Hc as (E1 & E2 & E3 & E4 & E5).
  unfold checkSite, classify_error. rewrite Ho, E1, E2, E3, E4, E5. simpl.
  rewrite Hcert, Hdns.
  destruct (String.eqb m "") eqn:Em; simpl; eexists; split; try reflexivity;
    repeat split.
Qed.

Lemma checkSite_unclassified_message_witness :
  exists r, checkSite "https://b.example"
    (env_at (AxError (Some "EHOSTUNREACH") (Some "connect EHOSTUNREACH")) 0) = Resolved r /\
    status r = "DOWN" /\ statusCode r = None /\ errorType r = Some "Unknown" /\
    error r = Some "connect EHOSTUNREACH".
Proof.
  apply (checkSite_unclassified_message "https://b.example" _ (Some "EHOSTUNREACH")
           "connect EHOSTUNREACH"); try reflexivity.
  intros c Hc. simpl in Hc.
  repeat (destruct Hc as [<- | Hc]; [discriminate|]). destruct Hc.
Defined.

Lemma completions_nil (order : list nat) : completions [] order = [].
Proof. unfold completions. induction order as [| i order IH]; simpl; done. Qed.

(** When [sites.json] cannot be read or parsed, holds [null], or has no
    or a falsy [sites] field, [loadSites] gives [[]]: initialisation then
    seeds nothing, [GET /api/check] answers 400 without probing, and a
    monitoring cycle reports zero sites and leaves the tracker as it was. *)
Theorem config_failure_monitors_nothing (f : sites_file) (envs : list probe_env)
  (order : list nat) (now : Z) (s : server)
  (Hf : f = FileUnreadable \/ f = FileInvalidJson \/ f = FileJsonNull \/
        f = FileJson SitesAbsent \/ f = FileJson SitesFalsy) :
  match loadSites f with
  | LoadedList l =>
      l = [] /\ initializeMonitoringState l s = s /\
      api_check (zip l envs) order now s = (ApiBadRequest "No sites configured in sites.json", s) /\
      let '(rep, s') := performAutomaticMonitoring (zip l envs) order now s in
      s' = s /\ stateChanges rep = [] /\ results rep = [] /\
      summary rep = {| total := 0; up := 0; down := 0 |}
  | LoadedOther => False
  end.
Proof.
  assert (loadSites f = LoadedList []) as -> by (intuition subst; reflexivity).
  simpl. unfold performAutomaticMonitoring. rewrite completions_nil. simpl.
  repeat split.
Qed.

Lemma config_failure_monitors_nothing_witness :
  loadSites FileInvalidJson = LoadedList [] /\
  api_check [] [] 7 server_empty
    = (ApiBadRequest "No sites configured in sites.json", server_empty).
Proof.
  pose proof (config_failure_monitors_nothing FileInvalidJson [] [] 7 server_empty
                (or_intror (or_introl eq_refl))) as H.
  simpl in H. destruct H as (_ & _ & H & _). split; [reflexivity | exact H].
Defined.

(** [GET /api/status/:siteName] answers with the stored entry when the
    map has one, with 404 for a missing name outside [Object.prototype],
    and with a 200 answer (not 404) for a missing name that
    [Object.prototype] carries, such as "constructor". *)
Theorem api_status_site_answers (nm : string) (now : Z) (s : server) :
  (forall st, monitoringState s !! nm = Some st ->
     api_status_site nm now s = SiteFound now (view_of_state st)) /\
  (monitoringState s !! nm = None -> nm ∉ object_prototype_names ->
     api_status_site nm now s
     = SiteNotFound ("Site " ++ dq ++ nm ++ dq ++ " not found in monitoring")%string) /\
  (monitoringState s !! nm = None -> nm ∈ object_prototype_names ->
     exists v, api_status_site nm now s = SiteFound now v).
Proof.
  unfold api_status_site, getSiteState, get_prop. repeat split.
  - intros st ->. reflexivity.
  - intros -> Hn. by rewrite bool_decide_eq_false_2.
  - intros -> Hn. rewrite bool_decide_eq_true_2 by done. eauto.
Qed.

Lemma api_status_site_answers_witness :
  api_status_site "zz" 3 server_empty
    = SiteNotFound ("Site " ++ dq ++ "zz" ++ dq ++ " not found in monitoring")%string /\
  exists v, api_status_site "constructor" 3 server_empty = SiteFound 3 v.
Proof.
  destruct (api_status_site_answers "zz" 3 server_empty) as (_ & H1 & _).
  destruct (api_status_site_answers "constructor" 3 server_empty) as (_ & _ & H2).
  split.
  - apply H1; [reflexivity | unfold object_prototype_names; set_solver].
  - apply H2; [reflexivity | unfold object_prototype_names; set_solver].
Defined.

(** *** Tracker invariants *)

Lemma update_ms_self (nm : string) (r : check_result) (t : Z) (s : server) :
  monitoringState (snd (updateMonitoringState nm r t s)) !! nm =
  match monitoringState s !! nm with
  | None => None
  | Some st => Some (if changed (lastStatus st) (status r)
                     then record_change (record_check st r) t else record_check st r)
  end.
Proof.
  destruct (monitoringState s !! nm) as [st|] eqn:E.
  - by apply update_own_state.
  - unfold updateMonitoringState, get_prop. rewrite E.
    destruct (bool_decide _); simpl; [destruct (_ && _)|]; exact E.
Qed.

Lemma update_ms_dom (nm k : string) (r : check_result) (t : Z) (s : server) :
  is_Some (monitoringState (snd (updateMonitoringState nm r t s)) !! k) <->
  is_Some (monitoringState s !! k).
Proof.
  destruct (decide (k = nm)) as [-> | Hk].
  - rewrite update_ms_self. destruct (monitoringState s !! nm); split; intros [? ?]; eauto;
      discriminate.
  - by rewrite update_ms_other.
Qed.

Lemma wf_update_entry (k : string) (st : site_state) (r : check_result) (t : Z) :
  wf_site k st -> (status r = "UP" \/ status r = "DOWN") ->
  wf_site k (if changed (lastStatus st) (status r)
             then record_change (record_check st r) t else record_check st r).
Proof.
  intros (Hn & _ & Hc & Hz & Hu & Hnc) Hs.
  destruct (changed (lastStatus st) (status r)) eqn:E;
    unfold wf_site, record_change, record_check; simpl.
  - repeat split; try tauto; try lia; try congruence.
    destruct Hs as [-> | ->]; auto.
  - repeat split; try tauto; try congruence.
    destruct Hs as [-> | ->]; auto.
Qed.

Lemma update_wf (nm : string) (r : check_result) (t : Z) (s : server) :
  wf_tracker s -> (status r = "UP" \/ status r = "DOWN") ->
  wf_tracker (snd (updateMonitoringState nm r t s)).
Proof.
  unfold wf_tracker. intros Hw Hs k st Hk.
  destruct (decide (k = nm)) as [-> | Hne].
  - rewrite update_ms_self in Hk.
    destruct (monitoringState s !! nm) as [st0|] eqn:E; [|discriminate].
    injection Hk as <-. apply wf_update_entry; [exact (Hw nm st0 E) | exact Hs].
  - rewrite update_ms_other in Hk by done. exact (Hw k st Hk).
Qed.

Lemma probe_status (p : site * probe_env) (r : check_result) :
  probe_of p = Resolved r -> status r = "UP" \/ status r = "DOWN".
Proof.
  intros H. pose proof (settle_status p) as Hs. unfold settle in Hs.
  rewrite H in Hs. exact Hs.
Qed.

Lemma cycle_fold_wf (ps : list (site * probe_env)) (acc : list change_event * server) :
  wf_tracker acc.2 -> wf_tracker (fold_left on_settled ps acc).2.
Proof.
  revert acc. induction ps as [| p ps IH]; intros [changes s] Hw; simpl; [done|].
  apply IH. unfold on_settled.
  destruct (probe_of p) as [r|] eqn:Hp; [| exact Hw].
  pose proof (update_wf (site_name p.1) r (pe_handled p.2) s Hw (probe_status p r Hp)) as H.
  destruct (updateMonitoringState _ _ _ _). exact H.
Qed.

Lemma cycle_wf (probes : list (site * probe_env)) (order : list nat) (now : Z) (s : server) :
  wf_tracker s -> wf_tracker (snd (performAutomaticMonitoring probes order now s)).
Proof.
  intros Hw. unfold performAutomaticMonitoring.
  pose proof (cycle_fold_wf (completions probes order) ([], s) Hw) as H.
  destruct (fold_left _ _ _). exact H.
Qed.

Lemma initialize_wf (l : list site) (s : server) :
  wf_tracker s -> wf_tracker (initializeMonitoringState l s).
Proof.
  revert s. induction l as [| t l IH]; intros s Hw; simpl; [done|].
  apply IH. destruct (get_prop s (site_name t)); [done | done |].
  apply map_Forall_insert_2; [| exact Hw].
  unfold wf_site, seed; simpl. repeat split; auto; lia.
Qed.

Lemma monitoring_run_wf (init_sites : list site) (cycles : list cycle_input) :
  wf_tracker (monitoring_run init_sites cycles).
Proof.
  unfold monitoring_run.
  assert (H0 : wf_tracker (initializeMonitoringState init_sites server_empty))
    by (apply initialize_wf; apply map_Forall_empty).
  revert H0. generalize (initializeMonitoringState init_sites server_empty).
  induction cycles as [| c cs IH]; intros s Hw; simpl; [done|].
  apply IH. apply cycle_wf. exact Hw.
Qed.

Lemma status_counts_views (l : list (string * site_state)) :
  Forall (fun kv => lastStatus kv.2 = None \/ lastStatus kv.2 = Some "UP" \/
                    lastStatus kv.2 = Some "DOWN") l ->
  let vs := map (fun kv => view_of_state kv.2) l in
  (length (List.filter (fun v => js_is_str (v_lastStatus v) "UP") vs) +
   length (List.filter (fun v => js_is_str (v_lastStatus v) "DOWN") vs) +
   length (List.filter (fun v => match v_lastStatus v with JNull => true | _ => false end) vs))%nat
  = length vs.
Proof.
  induction 1 as [| kv l Hkv Hl IH]; cbv zeta in *; [reflexivity|]. simpl.
  destruct Hkv as [H | [H | H]]; rewrite H; simpl; lia.
Qed.

(** [GET /api/status] over the tracker of a running server: [total] is
    the number of own entries of the map, [uptime] is "N/A" exactly when
    there are none, and every entry is counted once among [up], [down]
    and the entries not yet checked (shown with [lastStatus: null]). *)
Theorem api_status_counts (now : Z) (init_sites : list site) (cycles : list cycle_input) :
  let s := monitoring_run init_sites cycles in
  let '(ts, sm, sites) := api_status now s in
  ts = now /\ s_total sm = size (monitoringState s) /\ length sites = s_total sm /\
  (s_uptime sm = UptimeNA <-> s_total sm = 0%nat) /\
  (s_up sm + s_down sm +
   length (List.filter (fun v => match v_lastStatus v with JNull => true | _ => false end) sites))%nat
  = s_total sm.
Proof.
  intros s. pose proof (monitoring_run_wf init_sites cycles) as Hw. fold s in Hw.
  unfold api_status. simpl. rewrite length_map, length_map_to_list.
  repeat split.
  - destruct (Nat.ltb_spec 0 (size (monitoringState s))); [discriminate | lia].
  - intros Hz. destruct (Nat.ltb_spec 0 (size (monitoringState s))); [lia | done].
  - rewrite <- length_map_to_list, <- (length_map (fun kv => view_of_state kv.2)).
    apply status_counts_views.
    apply map_Forall_to_list in Hw. eapply Forall_impl; [exact Hw|].
    intros [k st] (_ & H & _). exact H.
Qed.

Lemma api_status_counts_witness :
  size (monitoringState (monitoring_run [site_A] cycle_A_then_B)) = 1%nat /\
  s_total (api_status 500 (monitoring_run [site_A] cycle_A_then_B)).1.2 = 1%nat.
Proof.
  assert (Hs : size (monitoringState (monitoring_run [site_A] cycle_A_then_B)) = 1%nat)
    by (vm_compute; reflexivity).
  split; [exact Hs|].
  pose proof (api_status_counts 500 [site_A] cycle_A_then_B) as H. cbv zeta in H.
  destruct (api_status 500 (monitoring_run [site_A] cycle_A_then_B)) as [[ts sm] sites].
  simpl. destruct H as (_ & H & _). rewrite H. exact Hs.
Defined.

(** Every entry of the tracker of a running server is stored under its
    own [name]; its [lastStatus] is [null], UP or DOWN; [changeCount] is
    non-negative and zero exactly when [lastChangedAt] is [null];
    [lastStatus] is [null] exactly when [lastCheckedAt] is; and an
    entry never checked has never changed. *)
Theorem tracker_entries_well_formed (init_sites : list site) (cycles : list cycle_input)
  (k : string) (st : site_state)
  (H : monitoringState (monitoring_run init_sites cycles) !! k = Some st) :
  name st = k /\
  (lastStatus st = None \/ lastStatus st = Some "UP" \/ lastStatus st = Some "DOWN") /\
  0 <= changeCount st /\
  (changeCount st = 0 <-> lastChangedAt st = None) /\
  (lastStatus st = None <-> lastCheckedAt st = None) /\
  (lastStatus st = None -> changeCount st = 0).
Proof. exact (monitoring_run_wf init_sites cycles k st H). Qed.

Lemma tracker_entries_well_formed_witness :
  exists st, monitoringState (monitoring_run [site_A] cycle_A_then_B) !! "A" = Some st /\
    name st = "A" /\ changeCount st = 1 /\ lastChangedAt st <> None.
Proof.
  eexists. split; [vm_compute; reflexivity|].
  match goal with
  | |- name ?st = _ /\ _ =>
      destruct (tracker_entries_well_formed [site_A] cycle_A_then_B "A" st
                  ltac:(vm_compute; reflexivity)) as (Hn & _ & _ & Hz & _)
  end.
  split; [exact Hn|]. split; [vm_compute; reflexivity|].
  intros Hc. apply Hz in Hc. discriminate Hc.
Defined.

(** *** Domain of the tracker *)

Lemma on_settled_dom (ps : list (site * probe_env)) (acc : list change_event * server) (k : string) :
  is_Some (monitoringState (fold_left on_settled ps acc).2 !! k) <->
  is_Some (monitoringState acc.2 !! k).
Proof.
  revert acc. induction ps as [| p ps IH]; intros [changes s]; simpl; [done|].
  rewrite IH. unfold on_settled.
  destruct (probe_of p) as [r|]; [| done].
  pose proof (update_ms_dom (site_name p.1) k r (pe_handled p.2) s) as H.
  destruct (updateMonitoringState _ _ _ _). exact H.
Qed.

Lemma cycle_dom (probes : list (site * probe_env)) (order : list nat) (now : Z) (s : server)
  (k : string) :
  is_Some (monitoringState (snd (performAutomaticMonitoring probes order now s)) !! k) <->
  is_Some (monitoringState s !! k).
Proof.
  unfold performAutomaticMonitoring.
  pose proof (on_settled_dom (completions probes order) ([], s) k) as H.
  destruct (fold_left _ _ _). exact H.
Qed.

Lemma initialize_step_dom (t : site) (s : server) (k : string) :
  is_Some (monitoringState (match get_prop s (site_name t) with
                            | Missing => set_state s (site_name t) (seed t)
                            | _ => s end) !! k) <->
  is_Some (monitoringState s !! k) \/ (site_name t = k /\ k ∉ object_prototype_names).
Proof.
  unfold get_prop. destruct (monitoringState s !! site_name t) eqn:E.
  - split; [tauto|]. intros [H | [<- _]]; [exact H | rewrite E; eauto].
  - destruct (bool_decide_reflect (site_name t ∈ object_prototype_names)) as [Hp | Hp].
    + split; [tauto|]. intros [H | [<- Hn]]; [exact H | contradiction].
    + simpl. destruct (decide (site_name t = k)) as [<- | Hk].
      * rewrite lookup_insert_eq. split; [eauto | eauto].
      * rewrite lookup_insert_ne by done. split; [tauto|]. intros [H | [? _]]; [exact H | done].
Qed.

Lemma initialize_dom (l : list site) (s : server) (k : string) :
  is_Some (monitoringState (initializeMonitoringState l s) !! k) <->
  is_Some (monitoringState s !! k) \/
  (In k (map site_name l) /\ k ∉ object_prototype_names).
Proof.
  revert s. induction l as [| t l IH]; intros s; simpl; [tauto|].
  rewrite IH, initialize_step_dom. tauto.
Qed.

(** The names the tracker of a running server holds are exactly the
    names of the sites loaded at startup, minus those [Object.prototype]
    carries: the cycles never add an entry, so a site added to
    [sites.json] later is probed but never tracked. *)
Theorem tracked_names (init_sites : list site) (cycles : list cycle_input) (k : string) :
  is_Some (monitoringState (monitoring_run init_sites cycles) !! k) <->
  In k (map site_name init_sites) /\ k ∉ object_prototype_names.
Proof.
  unfold monitoring_run.
  assert (Hc : forall s, is_Some (monitoringState
     (fold_left (fun s c => snd (performAutomaticMonitoring (ci_probes c) (ci_order c) (ci_now c) s))
        cycles s) !! k) <-> is_Some (monitoringState s !! k)).
  { induction cycles as [| c cs IH]; intros s; simpl; [done|]. by rewrite IH, cycle_dom. }
  rewrite Hc, initialize_dom. simpl. rewrite lookup_empty.
  split; [intros [[? [=]] | H]; exact H | tauto].
Qed.

(** *** What a cycle changes *)

(** A monitoring cycle changes the tracker entry of a name only through
    a probe of that name that resolved: when every probe of the name
    rejects (or none is dispatched), its entry, including its
    [lastStatus], stays as it was. *)
Theorem cycle_frame (probes : list (site * probe_env)) (order : list nat) (now : Z)
  (s : server) (k : string)
  (Hk : forall p r, In p (completions probes order) -> probe_of p = Resolved r ->
        site_name p.1 <> k) :
  monitoringState (snd (performAutomaticMonitoring probes order now s)) !! k
  = monitoringState s !! k.
Proof.
  unfold performAutomaticMonitoring.
  pose proof (on_settled_frame (completions probes order) ([], s) k Hk) as H.
  destruct (fold_left _ _ _). exact H.
Qed.

Lemma cycle_frame_witness :
  let s := snd (performAutomaticMonitoring [probe_ok] [0%nat] 60
                  (initializeMonitoringState [site_A] server_empty)) in
  monitoringState (snd (performAutomaticMonitoring [probe_failing] [0%nat] 360 s)) !! "A"
  = monitoringState s !! "A" /\
  option_map lastStatus (monitoringState s !! "A") = Some (Some "UP").
Proof.
  split; [| vm_compute; reflexivity].
  apply cycle_frame.
  intros p r Hp Hr. vm_compute in Hp. destruct Hp as [<- | []].
  vm_compute in Hr. discriminate Hr.
Defined.

Lemma update_alert (nm : string) (r : check_result) (t : Z) (s : server) :
  match updateMonitoringState nm r t s with
  | (None, s') => telegramCalls s' = telegramCalls s
  | (Some c, s') => exists a, telegramCalls s' = telegramCalls s ++ [a] /\
      al_siteName a = ce_siteName c /\ al_newStatus a = ce_newStatus c /\
      al_previousStatus a = ce_previousStatus c /\ al_checkedAt a = checkedAt r
  end.
Proof.
  unfold updateMonitoringState.
  destruct (get_prop s nm); [| | done]; destruct (_ && _); simpl; eauto 10.
Qed.

Lemma on_settled_alerts (ps : list (site * probe_env)) (acc : list change_event * server) :
  exists added sent,
    (fold_left on_settled ps acc).1 = acc.1 ++ added /\
    telegramCalls (fold_left on_settled ps acc).2 = telegramCalls acc.2 ++ sent /\
    Forall2 (fun c a => al_siteName a = ce_siteName c /\ al_newStatus a = ce_newStatus c /\
                        al_previousStatus a = ce_previousStatus c) added sent.
Proof.
  revert acc. induction ps as [| p ps IH]; intros [changes s]; cbn [fold_left].
  - exists [], []. rewrite !app_nil_r. auto.
  - destruct (IH (on_settled (changes, s) p)) as (added & sent & H1 & H2 & H3).
    rewrite H1, H2. unfold on_settled.
    destruct (probe_of p) as [r|]; simpl.
    + pose proof (update_alert (site_name p.1) r (pe_handled p.2) s) as Ha.
      destruct (updateMonitoringState _ _ _ _) as [[c|] s']; simpl.
      * destruct Ha as (a & Hs & Hn & Hst & Hp & _). rewrite Hs.
        exists (c :: added), (a :: sent). rewrite <- !app_assoc. simpl.
        split; [done|]. split; [done|]. constructor; auto.
      * rewrite Ha. eauto.
    + eauto.
Qed.

(** A monitoring cycle sends exactly one Telegram alert per element of
    its [stateChanges], in the same order, for the same site and with the
    same new and previous status; nothing else is sent. *)
Theorem cycle_alerts_match_changes (probes : list (site * probe_env)) (order : list nat)
  (now : Z) (s : server) :
  let '(rep, s') := performAutomaticMonitoring probes order now s in
  exists sent, telegramCalls s' = telegramCalls s ++ sent /\
    Forall2 (fun c a => al_siteName a = ce_siteName c /\ al_newStatus a = ce_newStatus c /\
                        al_previousStatus a = ce_previousStatus c) (stateChanges rep) sent.
Proof.
  unfold performAutomaticMonitoring.
  destruct (on_settled_alerts (completions probes order) ([], s)) as (added & sent & H1 & H2 & H3).
  destruct (fold_left _ _ _) as [changes s']. simpl in *. subst changes. eauto.
Qed.

(** Reporting a status equal to the one just recorded never counts as a
    change: the second update returns no event, sends no alert, and
    leaves [changeCount] and [lastChangedAt] as they were. *)
Theorem repeated_status_is_silent (nm : string) (r1 r2 : check_result) (t1 t2 : Z) (s : server)
  (Hk : is_Some (monitoringState s !! nm)) (Hs : status r2 = status r1) :
  let s1 := snd (updateMonitoringState nm r1 t1 s) in
  let '(ev, s2) := updateMonitoringState nm r2 t2 s1 in
  ev = None /\ telegramCalls s2 = telegramCalls s1 /\
  option_map changeCount (monitoringState s2 !! nm)
  = option_map changeCount (monitoringState s1 !! nm) /\
  option_map lastChangedAt (monitoringState s2 !! nm)
  = option_map lastChangedAt (monitoringState s1 !! nm).
Proof.
  destruct Hk as [st Hst]. intros s1.
  assert (H1 : monitoringState s1 !! nm =
    Some (if changed (lastStatus st) (status r1)
          then record_change (record_check st r1) t1 else record_check st r1))
    by (apply update_own_state; exact Hst).
  set (st1 := if changed _ _ then _ else _) in H1.
  assert (Hl : lastStatus st1 = Some (status r1))
    by (unfold st1; destruct (changed _ _); reflexivity).
  rewrite (update_own nm r2 t2 s1 st1 H1), Hl, Hs. simpl.
  rewrite String.eqb_refl. simpl. rewrite lookup_insert_eq, H1.
  repeat split.
Qed.

Lemma repeated_status_is_silent_witness :
  let s := initializeMonitoringState [site_A] server_empty in
  let s1 := snd (updateMonitoringState "A" (result_at "UP" 10) 11 s) in
  fst (updateMonitoringState "A" (result_at "UP" 20) 21 s1) = None.
Proof.
  pose proof (repeated_status_is_silent "A" (result_at "UP" 10) (result_at "UP" 20) 11 21
                (initializeMonitoringState [site_A] server_empty)
                ltac:(vm_compute; eauto) eq_refl) as H.
  simpl in H |- *. destruct (updateMonitoringState _ _ _ _) as [ev s2].
  destruct H as [-> _]. reflexivity.
Defined.

Lemma initialize_noop (l : list site) (s : server) :
  (forall t, In t l -> is_Some (monitoringState s !! site_name t) \/
                       site_name t ∈ object_prototype_names) ->
  initializeMonitoringState l s = s.
Proof.
  revert s. induction l as [| t l IH]; intros s H; simpl; [done|].
  unfold get_prop. destruct (monitoringState s !! site_name t) eqn:E.
  - apply IH. intros t' Ht'. apply H. by right.
  - destruct (H t (or_introl eq_refl)) as [[? E'] | Hp]; [congruence|].
    rewrite bool_decide_eq_true_2 by exact Hp.
    apply IH. intros t' Ht'. apply H. by right.
Qed.

(** Running [initializeMonitoringState] again on the same sites changes
    nothing: every name it would seed is already present (or is an
    [Object.prototype] name, which it never seeds). *)
Theorem initialize_idempotent (l : list site) (s : server) :
  initializeMonitoringState l (initializeMonitoringState l s) = initializeMonitoringState l s.
Proof.
  apply initialize_noop. intros t Ht.
  destruct (decide (site_name t ∈ object_prototype_names)) as [Hp | Hp]; [by right|].
  left. apply initialize_dom. right. split; [| exact Hp].
  apply in_map. exact Ht.
Qed.

(** *** Notifier *)



(** The alert sent for a change of a tracked site renders a status line
    ["Status: <new> (was <previous>)"] with the previously stored status
    (never "unknown"), a ["URL: <url>"] line with the stored URL, and has
    7 lines, or 8 when the check result carries a non-empty error. *)
Theorem tracked_change_alert_text (nm : string) (r : check_result) (t : Z) (s : server)
  (st : site_state) (iso : Z -> string)
  (Hst : monitoringState s !! nm = Some st) (Hc : changed (lastStatus st) (status r) = true) :
  exists a prev,
    telegramCalls (snd (updateMonitoringState nm r t s)) = telegramCalls s ++ [a] /\
    lastStatus st = Some prev /\ prev <> status r /\
    nth 3 (telegram_lines iso a) "" = ("Status: " ++ status r ++ " (was " ++ prev ++ ")")%string /\
    nth 2 (telegram_lines iso a) "" = ("URL: " ++ url st)%string /\
    length (telegram_lines iso a) = (if js_truthy_str (error r) then 8 else 7)%nat.
Proof.
  rewrite (update_own nm r t s st Hst), Hc. simpl.
  apply changed_spec in Hc as (prev & Hp & Hne).
  eexists _, prev. split; [reflexivity|]. split; [exact Hp|]. split; [exact Hne|].
  unfold telegram_lines, mk_alert. simpl. rewrite Hp. simpl.
  split; [reflexivity|]. split; [reflexivity|].
  destruct (error r) as [e|]; simpl; [destruct (negb (String.eqb e "")); reflexivity | reflexivity].
Qed.

Lemma tracked_change_alert_text_witness :
  let s := snd (updateMonitoringState "A" (result_at "UP" 10) 11
                  (initializeMonitoringState [site_A] server_empty)) in
  exists a prev,
    telegramCalls (snd (updateMonitoringState "A" (result_at "DOWN" 20) 21 s)) = telegramCalls s ++ [a] /\
    prev = "UP" /\
    nth 3 (telegram_lines (fun _ => "t") a) "" = "Status: DOWN (was UP)".
Proof.
  intros s.
  destruct (tracked_change_alert_text "A" (result_at "DOWN" 20) 21 s
              {| name := "A"; url := "http://a.example"; lastStatus := Some "UP";
                 lastCheckedAt := Some 10; lastChangedAt := None; changeCount := 0;
                 lastStatusCode := Some 200; lastError := None |}
              (fun _ => "t") ltac:(vm_compute; reflexivity) ltac:(vm_compute; reflexivity))
    as (a & prev & H1 & H2 & _ & H3 & _).
  injection H2 as <-. exists a, "UP". split; [exact H1|]. split; [reflexivity | exact H3].
Defined.

(** *** Routing *)



(** *** Frontend: [pingBackend] *)

Lemma ping_go_unfold (fuel : nat) (r m : Z) (attempt : Z -> ping_outcome) :
  ping_go fuel r m attempt =
  UiFetchHealth ::
  match attempt r with
  | PingResponse true => [UiClearError]
  | PingResponse false => []
  | PingThrows _ =>
      if r <? m then
        UiShowError (warming_message r m) :: UiRetryIn 2000 ::
        (match fuel with S fuel' => ping_go fuel' (r + 1) m attempt | O => [] end)
      else [UiShowError not_responding_message]
  end.
Proof. by destruct fuel. Qed.

Lemma ping_go_fetches_le (fuel : nat) (r m : Z) (attempt : Z -> ping_outcome) :
  (count_fetches (ping_go fuel r m attempt) <= fuel + 1)%nat.
Proof.
  revert r. induction fuel as [| f IH]; intros r; rewrite ping_go_unfold;
    unfold count_fetches; simpl.
  - destruct (attempt r) as [[]|]; simpl; [lia | lia |].
    destruct (r <? m); simpl; lia.
  - destruct (attempt r) as [[]|]; simpl; [lia | lia |].
    destruct (r <? m); simpl; [| lia].
    specialize (IH (r + 1)). unfold count_fetches in IH. lia.
Qed.

Lemma ping_go_all_throw (fuel : nat) (r m : Z) (attempt : Z -> ping_outcome) :
  (forall n, exists msg, attempt n = PingThrows msg) -> fuel = Z.to_nat (m - r) ->
  count_fetches (ping_go fuel r m attempt) = (fuel + 1)%nat /\
  last (ping_go fuel r m attempt) = Some (UiShowError not_responding_message).
Proof.
  intros Ha. revert r. induction fuel as [| f IH]; intros r Hf; rewrite ping_go_unfold;
    destruct (Ha r) as [msg ->].
  - assert ((r <? m) = false) as -> by (apply Z.ltb_ge; lia). split; reflexivity.
  - assert ((r <? m) = true) as -> by (apply Z.ltb_lt; lia).
    destruct (IH (r + 1) ltac:(lia)) as [H1 H2].
    split.
    + unfold count_fetches in *. simpl. rewrite H1. lia.
    + change (last (UiFetchHealth :: UiShowError (warming_message r m) :: UiRetryIn 2000 ::
                      ping_go f (r + 1) m attempt) = Some (UiShowError not_responding_message)).
      rewrite !last_cons_cons, (ping_go_unfold f), last_cons_cons.
      rewrite ping_go_unfold in H2. exact H2.
Qed.

(** The frontend's [pingBackend(retryCount, maxRetries)] fetches
    [/health] at most [maxRetries - retryCount + 1] times (4 with the
    defaults [0, 3]). A non-ok HTTP answer ends it after one fetch with
    nothing shown and no retry. When every fetch throws, it fetches
    exactly that many times and ends with the "not responding" message. *)
Theorem pingBackend_attempts (retryCount maxRetries : Z) (attempt : Z -> ping_outcome) :
  (count_fetches (pingBackend retryCount maxRetries attempt)
   <= Z.to_nat (maxRetries - retryCount) + 1)%nat /\
  (attempt retryCount = PingResponse false ->
   pingBackend retryCount maxRetries attempt = [UiFetchHealth]) /\
  ((forall n, exists msg, attempt n = PingThrows msg) ->
   count_fetches (pingBackend retryCount maxRetries attempt)
   = (Z.to_nat (maxRetries - retryCount) + 1)%nat /\
   last (pingBackend retryCount maxRetries attempt) = Some (UiShowError not_responding_message)).
Proof.
  unfold pingBackend. split; [apply ping_go_fetches_le|]. split.
  - intros H. rewrite ping_go_unfold, H. reflexivity.
  - intros H. apply ping_go_all_throw; [exact H | reflexivity].
Qed.

Lemma pingBackend_attempts_witness :
  count_fetches (pingBackend 0 3 (fun _ => PingThrows "Failed to fetch")) = 4%nat /\
  pingBackend 0 3 (fun n => if n =? 0 then PingResponse false else PingThrows "x")
  = [UiFetchHealth].
Proof.
  split.
  - apply (proj2 (proj2 (pingBackend_attempts 0 3 (fun _ => PingThrows "Failed to fetch")))).
    intros n. eexists. reflexivity.
  - apply (proj1 (proj2 (pingBackend_attempts 0 3
                           (fun n => if n =? 0 then PingResponse false else PingThrows "x")))).
    reflexivity.
Defined.

Lemma tracked_names_witness :
  let init := [site_A; {| site_name := "constructor"; site_url := "https://c.example" |}] in
  is_Some (monitoringState (monitoring_run init cycle_A_then_B) !! "A") /\
  ~ is_Some (monitoringState (monitoring_run init cycle_A_then_B) !! "constructor").
Proof.
  intros init. split.
  - apply (proj2 (tracked_names init cycle_A_then_B "A")).
    split; [simpl; auto | unfold object_prototype_names; set_solver].
  - rewrite (tracked_names init cycle_A_then_B "constructor"). intros [_ Hn]. apply Hn.
    unfold object_prototype_names; set_solver.
Defined.
